(** * Doc Up plugin: the [/create] handler of [server/plugin.go]

    A shallow embedding of [ServeHTTP], of [handleCreate] and of the
    library functions they call, followed by the properties of the
    handler.

    Go strings are byte sequences: they are modelled by [string], whose
    characters are the 8-bit [ascii].  Pointers that may be [nil] are
    [option]s, and dereferencing [None] panics. *)

From Stdlib Require Import String Ascii List Bool ZArith Lia.
From stdpp Require Import base option gmap strings.
Import ListNotations.

Local Open Scope string_scope.
Local Open Scope Z_scope.

(** ** Bytes that have no literal spelling *)

Definition LF : ascii := ascii_of_nat 10.
Definition DQUOTE : ascii := ascii_of_nat 34.
Definition nl : string := String LF EmptyString.

(** ** Package [strings] *)

Module strings.

(** [strings.Count(s, sep)] for a one-byte separator. *)
Fixpoint Count (s : string) (sep : ascii) : nat :=
  match s with
  | EmptyString => 0%nat
  | String c s' => if Ascii.eqb c sep then S (Count s' sep) else Count s' sep
  end.

(** [strings.Split(s, sep)] for a one-byte separator, the way both call
    sites of the handler use it ([/] and [,]): the substrings between the
    separators, in order; a string without separator (the empty string
    too) gives one element. *)
Fixpoint Split (s : string) (sep : ascii) : list string :=
  match s with
  | EmptyString => [EmptyString]
  | String c s' =>
      if Ascii.eqb c sep then EmptyString :: Split s' sep
      else match Split s' sep with
           | x :: xs => String c x :: xs
           | [] => [String c EmptyString]
           end
  end.

(** [strings.Join(elems, sep)]. *)
Fixpoint Join (elems : list string) (sep : string) : string :=
  match elems with
  | [] => EmptyString
  | [x] => x
  | x :: xs => x +:+ sep +:+ Join xs sep
  end.

(** [strings.HasPrefix(s, prefix)]. *)
Definition HasPrefix (s pre : string) : bool := String.prefix pre s.

(** [strings.IndexByte(s, c)], [None] for Go's [-1]. *)
Fixpoint IndexByte (s : string) (c : ascii) : option nat :=
  match s with
  | EmptyString => None
  | String d s' => if Ascii.eqb d c then Some 0%nat else S <$> IndexByte s' c
  end.

(** [strings.LastIndex(s, sep)] for a one-byte separator. *)
Fixpoint LastIndexByte (s : string) (c : ascii) : option nat :=
  match s with
  | EmptyString => None
  | String d s' =>
      match LastIndexByte s' c with
      | Some i => Some (S i)
      | None => if Ascii.eqb d c then Some 0%nat else None
      end
  end.

(** The slices [s[:i]] and [s[i:]]. *)
Definition take (i : nat) (s : string) : string := String.substring 0 i s.
Definition drop (i : nat) (s : string) : string :=
  String.substring i (String.length s - i) s.

(** [strings.ToLower] on ASCII letters (bytes above 127 are left alone). *)
Definition lowerByte (c : ascii) : ascii :=
  let n := nat_of_ascii c in
  if ((65 <=? n) && (n <=? 90))%nat then ascii_of_nat (n + 32) else c.

Fixpoint ToLower (s : string) : string :=
  match s with
  | EmptyString => EmptyString
  | String c s' => String (lowerByte c) (ToLower s')
  end.

End strings.

(** ** Package [fmt] *)

Module fmt.

(** The operands left over when the format is exhausted:
    [%!(EXTRA string=a, string=b)]. *)
Fixpoint extra (a : list string) : string :=
  match a with
  | [] => ""
  | [x] => "string=" +:+ x
  | x :: xs => "string=" +:+ x +:+ ", " +:+ extra xs
  end.

(** [fmt.Sprintf(format, a...)] for string operands and formats whose
    verbs carry no flag, width or precision: [%s] and [%v] print the next
    operand, [%%] a percent sign; a missing operand, a verb without
    meaning for strings here and operands left over are reported in the
    output the way [fmt] does. *)
Fixpoint Sprintf (format : string) (a : list string) : string :=
  match format with
  | EmptyString =>
      match a with
      | [] => ""
      | _ => "%!(EXTRA " +:+ extra a +:+ ")"
      end
  | String c rest =>
      if Ascii.eqb c "%" then
        match rest with
        | EmptyString => "%!(NOVERB)"
        | String v rest' =>
            if Ascii.eqb v "%" then String "%" (Sprintf rest' a)
            else
              match a with
              | [] => "%!" +:+ String v "(MISSING)" +:+ Sprintf rest' []
              | x :: a' =>
                  if Ascii.eqb v "s" || Ascii.eqb v "v"
                  then x +:+ Sprintf rest' a'
                  else "%!" +:+ String v "(string=" +:+ x +:+ ")"
                       +:+ Sprintf rest' a'
              end
        end
      else String c (Sprintf rest a)
  end.

End fmt.

(** ** Package [path] *)

Module path.

(** One element of a slash-separated path against the elements kept so
    far (innermost first): empty and [.] elements vanish, [..] removes
    the element before it, or stays when the path is not rooted and
    there is nothing left to remove. *)
Definition cleanStep (rooted : bool) (kept : list string) (elem : string)
  : list string :=
  if String.eqb elem "" || String.eqb elem "." then kept
  else if String.eqb elem ".." then
    match kept with
    | top :: below =>
        if String.eqb top ".." then elem :: kept else below
    | [] => if rooted then [] else [elem]
    end
  else elem :: kept.

(** [path.Clean(p)]: the shortest path name equivalent to [p] by purely
    lexical processing. *)
Definition Clean (p : string) : string :=
  match p with
  | EmptyString => "."
  | String c _ =>
      let rooted := Ascii.eqb c "/" in
      let kept := rev (fold_left (cleanStep rooted) (strings.Split p "/") []) in
      if rooted then "/" +:+ strings.Join kept "/"
      else match kept with
           | [] => "."
           | _ => strings.Join kept "/"
           end
  end.

(** [path.Join(elem...)]: the elements from the first non-empty one on,
    joined by slashes and cleaned; the empty string when all are empty. *)
Fixpoint Join (elem : list string) : string :=
  match elem with
  | [] => ""
  | e :: rest =>
      if String.eqb e "" then Join rest
      else Clean (strings.Join elem "/")
  end.

End path.

(** ** Errors *)

(** A value of Go's interface [error], by what its method [Error()]
    returns. *)
Record error := { Error : string }.

(** ** Package [net/url] *)

Module url.

(** [url.Userinfo]. *)
Record Userinfo := {
  username : string;
  password : string;
  passwordSet : bool
}.

(** [url.URL]. *)
Record URL := {
  Scheme : string;
  Opaque : string;
  User : option Userinfo;
  Host : string;
  Path : string;
  RawPath : string;
  ForceQuery : bool;
  RawQuery : string;
  Fragment : string
}.

(** The assignment [u.Path = p]. *)
Definition setPathField (u : URL) (p : string) : URL :=
  {| Scheme := Scheme u; Opaque := Opaque u; User := User u;
     Host := Host u; Path := p; RawPath := RawPath u;
     ForceQuery := ForceQuery u; RawQuery := RawQuery u;
     Fragment := Fragment u |}.

End url.

(** ** Package [net/http] *)

Module http.

Definition StatusOK : Z := 200.
Definition StatusBadRequest : Z := 400.
Definition StatusUnauthorized : Z := 401.
Definition StatusNotFound : Z := 404.
Definition StatusInternalServerError : Z := 500.

(** [http.Header]: a map from canonical keys to the values sent. *)
Abbreviation Header := (gmap string (list string)).

(** The bytes a header field name may hold (RFC 7230 token). *)
Definition validHeaderFieldByte (c : ascii) : bool :=
  let n := nat_of_ascii c in
  (((48 <=? n) && (n <=? 57)) || ((65 <=? n) && (n <=? 90))
   || ((97 <=? n) && (n <=? 122))
   || existsb (Ascii.eqb c)
        ["!"; "#"; "$"; "%"; "&"; "'"; "*"; "+"; "-"; "."; "^"; "_"; "`";
         "|"; "~"]%char)%nat.

Fixpoint allValid (s : string) : bool :=
  match s with
  | EmptyString => true
  | String c s' => validHeaderFieldByte c && allValid s'
  end.

Fixpoint canonical (upper : bool) (s : string) : string :=
  match s with
  | EmptyString => EmptyString
  | String c s' =>
      let n := nat_of_ascii c in
      let c' :=
        (if upper && (97 <=? n) && (n <=? 122) then ascii_of_nat (n - 32)
         else if negb upper && (65 <=? n) && (n <=? 90)
              then ascii_of_nat (n + 32)
              else c)%nat in
      String c' (canonical (Ascii.eqb c' "-") s')
  end.

(** [textproto.CanonicalMIMEHeaderKey]: the first letter and every
    letter after a hyphen in upper case, the others in lower case; a key
    with a byte that no field name may hold is returned unchanged. *)
Definition CanonicalMIMEHeaderKey (s : string) : string :=
  if allValid s then canonical true s else s.

(** [Header.Get(key)]: the first value of the key, [""] without one. *)
Definition Header_Get (h : Header) (key : string) : string :=
  match h !! CanonicalMIMEHeaderKey key with
  | Some (v :: _) => v
  | _ => ""
  end.

(** [Header.Set(key, value)]. *)
Definition Header_Set (h : Header) (key value : string) : Header :=
  <[CanonicalMIMEHeaderKey key := [value]]> h.

(** The part of [*http.Request] the plugin reads; [Body] is the whole
    stream of the request body. *)
Record Request := {
  URL_Path : string;
  ReqHeader : Header;
  Body : string
}.

(** The state behind an [http.ResponseWriter]: the header map, the
    status code once [WriteHeader] was called, the body written. *)
Record ResponseWriter := {
  header : Header;
  status : option Z;
  body : string
}.

Definition newResponse : ResponseWriter :=
  {| header := ∅; status := None; body := "" |}.

(** [w.WriteHeader(code)]: only the first call counts. *)
Definition WriteHeader (w : ResponseWriter) (code : Z) : ResponseWriter :=
  match status w with
  | Some _ => w
  | None => {| header := header w; status := Some code; body := body w |}
  end.

(** [w.Write(b)]: sends the status 200 first if none was sent. *)
Definition Write_ (w : ResponseWriter) (b : string) : ResponseWriter :=
  let w := WriteHeader w StatusOK in
  {| header := header w; status := status w; body := body w +:+ b |}.

(** [http.Error(w, error, code)]. *)
Definition Error (w : ResponseWriter) (err : string) (code : Z)
  : ResponseWriter :=
  let h := Header_Set (header w) "Content-Type" "text/plain; charset=utf-8" in
  let h := Header_Set h "X-Content-Type-Options" "nosniff" in
  let w := {| header := h; status := status w; body := body w |} in
  let w := WriteHeader w code in
  Write_ w (err +:+ nl).

(** What the server does when the handler has returned: a handler that
    never set a status answers 200. *)
Definition finishRequest (w : ResponseWriter) : ResponseWriter :=
  WriteHeader w StatusOK.

End http.

(** ** Package [model] of the Mattermost server *)

Module model.

(** [model.AppError] (the fields [Error()] reads). *)
Record AppError := {
  Where : string;
  Message : string;
  DetailedError : string
}.

Definition AppError_Error (er : AppError) : string :=
  Where er +:+ ": " +:+ Message er +:+ ", " +:+ DetailedError er.

(** [model.User] (a part of its fields). *)
Record User := {
  UserId_ : string;
  Username : string;
  Nickname : string;
  FirstName : string;
  LastName : string
}.

(** [model.Post] (a part of its fields); fields a composite literal
    leaves out are empty. *)
Record Post := {
  Id : string;
  UserId : string;
  ChannelId : string;
  RootId : string;
  ParentId : string;
  PostMessage : string
}.

Record ServiceSettings := { SiteURL : option string }.

Record Config := { ServiceSettings_ : ServiceSettings }.

End model.

(** ** Package [github] *)

Module github.

(** [github.IssueRequest]. *)
Record IssueRequest := {
  Title : option string;
  Body : option string;
  Labels : option (list string);
  Assignee : option string;
  State : option string;
  Milestone : option Z;
  Assignees : option (list string)
}.

(** [github.Issue] (a part of its fields). *)
Record Issue := {
  Number : option Z;
  HTMLURL : option string
}.

(** The method [GetHTMLURL] of a pointer to an issue: safe on a nil
    issue and on a nil field. *)
Definition GetHTMLURL (i : option Issue) : string :=
  match i with
  | Some {| HTMLURL := Some u |} => u
  | _ => ""
  end.

End github.

(** ** The plugin *)

(** [configuration]: the type is declared beside [plugin.go]; these are
    the fields [plugin.go] reads. *)
Record configuration := {
  GitHubAPIKey : string;
  AdminRepository : string;
  DeveloperRepository : string;
  HandbookRepository : string;
  Labels : string
}.

(** [CreateAPIRequest]: the JSON object a client posts to [/create]. *)
Record CreateAPIRequest := {
  Type_ : string;
  Title : string;
  Body : string;
  PostID : string
}.

Module plugin.

(** The methods of [plugin.API] the handler calls, by what the server
    answers.  [LogError] answers nothing and is only recorded. *)
Record API := {
  GetUser : string -> option model.User * option model.AppError;
  GetPost : string -> option model.Post * option model.AppError;
  GetConfig : option model.Config;
  CreatePost : model.Post -> option model.Post * option model.AppError
}.

End plugin.

(** [Plugin], once activated: the server's API, the configuration
    [p.getConfiguration()] returns, and the GitHub client, by what
    [Issues.Create(ctx, owner, repo, issue)] answers (the [*Response] is
    ignored by the handler). *)
Record Plugin := {
  API : plugin.API;
  getConfiguration : configuration;
  Issues_Create :
    string -> string -> github.IssueRequest -> option github.Issue * option error
}.

(** The two libraries whose whole behaviour is outside the handler,
    [encoding/json] and [net/url], are an interface: the handler and its
    properties are stated for any implementation.  [url_Parse] returns a
    nil URL exactly when it returns an error, which the sum expresses. *)
Record Library := {
  json_Decode : string -> option CreateAPIRequest * option error;
  url_Parse : string -> url.URL + error;
  URL_String : url.URL -> string
}.

(** ** Effects *)

(** What the handler does to the world outside the response, in order. *)
Inductive Call :=
| ReadConfiguration
| LogError (msg : string)
| CallGetUser (userID : string)
| CallGetConfig
| CallGetPost (postID : string)
| CallIssuesCreate (owner repo : string) (issue : github.IssueRequest)
| CallCreatePost (post : model.Post).

Record State := {
  w : http.ResponseWriter;
  calls : list Call
}.

Definition start : State := {| w := http.newResponse; calls := [] |}.

(** How a statement ends: execution goes on, the function returns, or
    the goroutine panics. *)
Inductive Flow (A : Type) : Type :=
| Next (a : A)
| Return
| Panic.
Arguments Next {A} a.
Arguments Return {A}.
Arguments Panic {A}.

Definition Handler (A : Type) : Type := State -> Flow A * State.

#[global] Instance Handler_ret : MRet Handler :=
  fun A a st => (Next a, st).

#[global] Instance Handler_bind : MBind Handler :=
  fun A B k m st =>
    match m st with
    | (Next a, st') => k a st'
    | (Return, st') => (Return, st')
    | (Panic, st') => (Panic, st')
    end.

Definition skip : Handler unit := mret tt.

(** The [return] statement. *)
Definition return_ {A} : Handler A := fun st => (Return, st).

(** Dereferencing a pointer. *)
Definition deref {A} (ptr : option A) : Handler A :=
  fun st => match ptr with
            | Some a => (Next a, st)
            | None => (Panic, st)
            end.

(** Indexing a slice. *)
Definition index {A} (l : list A) (i : nat) : Handler A :=
  fun st => match nth_error l i with
            | Some a => (Next a, st)
            | None => (Panic, st)
            end.

Definition record (c : Call) : Handler unit :=
  fun st => (Next tt, {| w := w st; calls := calls st ++ [c] |}).

Definition onResponse (f : http.ResponseWriter -> http.ResponseWriter)
  : Handler unit :=
  fun st => (Next tt, {| w := f (w st); calls := calls st |}).

Definition WriteHeader (code : Z) : Handler unit :=
  onResponse (fun w => http.WriteHeader w code).

Definition http_Error (err : string) (code : Z) : Handler unit :=
  onResponse (fun w => http.Error w err code).

Definition p_getConfiguration (p : Plugin) : Handler configuration :=
  record ReadConfiguration ;; mret (getConfiguration p).

Definition API_LogError (msg : string) : Handler unit :=
  record (LogError msg).

Definition API_GetUser (p : Plugin) (userID : string)
  : Handler (option model.User * option model.AppError) :=
  record (CallGetUser userID) ;; mret (plugin.GetUser (API p) userID).

Definition API_GetConfig (p : Plugin) : Handler (option model.Config) :=
  record CallGetConfig ;; mret (plugin.GetConfig (API p)).

Definition API_GetPost (p : Plugin) (postID : string)
  : Handler (option model.Post * option model.AppError) :=
  record (CallGetPost postID) ;; mret (plugin.GetPost (API p) postID).

Definition API_CreatePost (p : Plugin) (post : model.Post)
  : Handler (option model.Post * option model.AppError) :=
  record (CallCreatePost post) ;; mret (plugin.CreatePost (API p) post).

Definition github_Issues_Create (p : Plugin) (owner repo : string)
    (issue : github.IssueRequest)
  : Handler (option github.Issue * option error) :=
  record (CallIssuesCreate owner repo issue) ;;
  mret (Issues_Create p owner repo issue).

(** ** The handler *)

Definition issueBodyFormat : string :=
  "Mattermost user `%s` from %s has requested the following be documented:"
  +:+ nl +:+ nl +:+ "```" +:+ nl +:+ "%s" +:+ nl +:+ "```" +:+ nl +:+ nl
  +:+ "See the original post [here](%s)." +:+ nl +:+ nl
  +:+ "_This issue was generated from [Mattermost](https://mattermost.com) using the [Doc Up](https://github.com/jwilander/mattermost-plugin-docup) plugin._".

Definition postMessageFormat : string :=
  "Marked [this post](%s) for documentation [here](%s)." +:+ nl +:+ nl
  +:+ "_Generated by the [Doc Up](https://github.com/jwilander/mattermost-plugin-docup) plugin._".

Section Handler.

Context (lib : Library).

(** [url.Parse] as Go returns it: a pointer and an error. *)
Definition url_Parse_ (rawurl : string) : option url.URL * option error :=
  match url_Parse lib rawurl with
  | inl u => (Some u, None)
  | inr e => (None, Some e)
  end.

Definition handleCreate (p : Plugin) (r : http.Request) : Handler unit :=
  let userID := http.Header_Get (http.ReqHeader r) "Mattermost-User-ID" in
  (if String.eqb userID "" then
     http_Error "Not authorized" http.StatusUnauthorized ;;
     return_
   else skip) ;;

  let '(createRequest, err) := json_Decode lib (http.Body r) in
  match err with
  | Some err =>
      API_LogError ("Unable to decode JSON err=" +:+ Error err) ;;
      WriteHeader http.StatusInternalServerError ;;
      return_
  | None => skip
  end ;;

  config ← p_getConfiguration p ;

  createRequest ← deref createRequest ;
  let ownerAndRepo :=
    if String.eqb (Type_ createRequest) "admin" then AdminRepository config
    else if String.eqb (Type_ createRequest) "developer"
         then DeveloperRepository config
    else if String.eqb (Type_ createRequest) "handbook"
         then HandbookRepository config
    else "" in

  (if String.eqb ownerAndRepo "" then
     WriteHeader http.StatusBadRequest ;;
     return_
   else skip) ;;

  let repoSplit := strings.Split ownerAndRepo "/" in
  (if negb (Nat.eqb (length repoSplit) 2) then
     API_LogError ("Bad configured repo: " +:+ ownerAndRepo) ;;
     WriteHeader http.StatusInternalServerError ;;
     return_
   else skip) ;;

  owner ← index repoSplit 0 ;
  repo ← index repoSplit 1 ;

  let labels :=
    if negb (String.eqb (Labels config) "")
    then strings.Split (Labels config) ","
    else [] in

  '(user, appErr) ← API_GetUser p userID ;
  match appErr with
  | Some appErr =>
      API_LogError ("Unable to get user err=" +:+ model.AppError_Error appErr) ;;
      WriteHeader http.StatusInternalServerError ;;
      return_
  | None => skip
  end ;;

  serverConfig ← API_GetConfig p ;

  '(docPost, appErr) ← API_GetPost p (PostID createRequest) ;
  match appErr with
  | Some appErr =>
      API_LogError ("Unable to get post err=" +:+ model.AppError_Error appErr) ;;
      WriteHeader http.StatusInternalServerError ;;
      return_
  | None => skip
  end ;;

  docPost ← deref docPost ;
  let rootID :=
    if String.eqb (model.RootId docPost) "" then model.Id docPost
    else model.RootId docPost in

  serverConfig ← deref serverConfig ;
  siteURL ← deref (model.SiteURL (model.ServiceSettings_ serverConfig)) ;
  let '(permalink, _) := url_Parse_ siteURL in
  permalink ← deref permalink ;
  let permalink :=
    url.setPathField permalink
      (path.Join [url.Path permalink; "_redirect"; "pl"; model.Id docPost]) in

  user ← deref user ;
  let body :=
    fmt.Sprintf issueBodyFormat
      [model.Username user; siteURL; Body createRequest;
       URL_String lib permalink] in

  let issueRequest :=
    {| github.Title :=
         Some ("Request for Documentation: " +:+ Title createRequest);
       github.Body := Some body;
       github.Labels := Some labels;
       github.Assignee := None;
       github.State := None;
       github.Milestone := None;
       github.Assignees := None |} in

  '(issue, err) ← github_Issues_Create p owner repo issueRequest ;
  match err with
  | Some err =>
      API_LogError ("Error creating GitHub issue err=" +:+ Error err) ;;
      WriteHeader http.StatusInternalServerError ;;
      return_
  | None => skip
  end ;;

  let post :=
    {| model.Id := "";
       model.UserId := userID;
       model.ChannelId := model.ChannelId docPost;
       model.RootId := rootID;
       model.ParentId := "";
       model.PostMessage :=
         fmt.Sprintf postMessageFormat
           [URL_String lib permalink; github.GetHTMLURL issue] |} in

  '(_, appErr) ← API_CreatePost p post ;
  match appErr with
  | Some appErr =>
      API_LogError ("Unable to create post err=" +:+ model.AppError_Error appErr) ;;
      WriteHeader http.StatusInternalServerError ;;
      return_
  | None => skip
  end.

(** [ServeHTTP]: the only route is [/create]. *)
Definition ServeHTTP (p : Plugin) (r : http.Request) : Handler unit :=
  if String.eqb (http.URL_Path r) "/create" then handleCreate p r
  else http_Error "404 page not found" http.StatusNotFound.

End Handler.

(** How the exchange ended for the client. *)
Inductive Outcome := Completed | Panicked.

(** The server runs a handler on a fresh response; when the handler
    returns the response is finished, when it panics nothing more is
    written by the plugin. *)
Definition serve (h : Handler unit) : Outcome * State :=
  match h start with
  | (Panic, st) => (Panicked, st)
  | (_, st) =>
      (Completed, {| w := http.finishRequest (w st); calls := calls st |})
  end.

(** ** A reference [encoding/json]

    A decoder for [CreateAPIRequest] to run the handler on examples: the
    JSON grammar, the first value of the stream only (what follows it is
    not read, as with [Decoder.Decode]), object keys matched to the
    fields' tags exactly and then without regard to case (the long s and
    the Kelvin sign count as [s] and [k], as in Go), [null] leaving its
    target as it is.  Bytes above 127 inside strings are
    copied as they are; error texts follow Go's wording. *)

Module json.

#[warnings="-register-all"]
Inductive Value :=
| Null
| Bool (b : bool)
| Number (lit : string)
| Str (s : string)
| Array (elems : list Value)
| Object (members : list (string * Value)).

Definition Parsed (A : Type) : Type := (A * string) + error.

Definition fail {A} (msg : string) : A + error := inr {| Error := msg |}.

Definition unexpectedEOF {A} : A + error := fail "unexpected EOF".

Definition quoteChar (c : ascii) : string :=
  if Ascii.eqb c "'" then "'\''"
  else "'" +:+ String c "'".

Definition invalid {A} (c : ascii) (context : string) : A + error :=
  fail ("invalid character " +:+ quoteChar c +:+ " " +:+ context).

Definition isSpace (c : ascii) : bool :=
  let n := nat_of_ascii c in
  ((n =? 32) || (n =? 9) || (n =? 13) || (n =? 10))%nat.

Fixpoint skipSpace (s : string) : string :=
  match s with
  | String c s' => if isSpace c then skipSpace s' else s
  | EmptyString => s
  end.

Definition isDigit (c : ascii) : bool :=
  let n := nat_of_ascii c in ((48 <=? n) && (n <=? 57))%nat.

Definition hexValue (c : ascii) : option N :=
  let n := N_of_ascii c in
  (if (48 <=? n) && (n <=? 57) then Some (n - 48)
   else if (97 <=? n) && (n <=? 102) then Some (n - 87)
   else if (65 <=? n) && (n <=? 70) then Some (n - 55)
   else None)%N.

(** The rest of a literal name ([ull] after [n], ...). *)
Fixpoint literal (name expect s : string) : Parsed unit :=
  match expect with
  | EmptyString => inl (tt, s)
  | String e expect' =>
      match s with
      | EmptyString => unexpectedEOF
      | String c s' =>
          if Ascii.eqb c e then literal name expect' s'
          else invalid c ("in literal " +:+ name +:+ " (expecting "
                          +:+ quoteChar e +:+ ")")
      end
  end.

Fixpoint digits (s : string) : string * string :=
  match s with
  | String c s' =>
      if isDigit c then let '(d, r) := digits s' in (String c d, r)
      else (EmptyString, s)
  | EmptyString => (EmptyString, s)
  end.

(** One or more digits, after [context]. *)
Definition digits1 (context : string) (s : string) : Parsed string :=
  match s with
  | EmptyString => unexpectedEOF
  | String c _ =>
      if isDigit c then inl (digits s) else invalid c context
  end.

(** A number: an optional minus sign, then a zero or a non-zero digit
    with more digits, then optionally a point with digits, then
    optionally an exponent: [e] or [E], an optional sign, digits. *)
Definition number (s : string) : Parsed string :=
  let '(sign, s) :=
    match s with
    | String "-" s' => ("-", s')
    | _ => ("", s)
    end in
  match s with
  | EmptyString => unexpectedEOF
  | String c s' =>
      if negb (isDigit c) then invalid c "in numeric literal"
      else
        let '(int, s) :=
          if Ascii.eqb c "0" then ("0", s') else digits s in
        match
          match s with
          | String "." s' =>
              match digits1 "after decimal point in numeric literal" s' with
              | inl (d, r) => inl ("." +:+ d, r)
              | inr e => inr e
              end
          | _ => inl ("", s)
          end
        with
        | inr e => inr e
        | inl (frac, s) =>
            let withExp (e : ascii) (s' : string) : Parsed string :=
              let '(esign, s') :=
                match s' with
                | String "+" r => ("+", r)
                | String "-" r => ("-", r)
                | _ => ("", s')
                end in
              match digits1 "in exponent of numeric literal" s' with
              | inl (d, r) =>
                  inl (sign +:+ int +:+ frac +:+ String e esign +:+ d, r)
              | inr err => inr err
              end in
            match s with
            | String "e" s' => withExp "e"%char s'
            | String "E" s' => withExp "E"%char s'
            | _ => inl (sign +:+ int +:+ frac, s)
            end
        end
  end.

(** The units of a string literal: a byte of the input, or the UTF-16
    code unit of a [\u] escape. *)
Fixpoint stringBody (s : string) : Parsed (list (ascii + N)) :=
  match s with
  | EmptyString => unexpectedEOF
  | String c s' =>
      if Ascii.eqb c DQUOTE then inl ([], s')
      else if Ascii.eqb c "\" then
        match s' with
        | EmptyString => unexpectedEOF
        | String e s'' =>
            let simple (b : nat) :=
              match stringBody s'' with
              | inl (us, r) => inl (inl (ascii_of_nat b) :: us, r)
              | inr err => inr err
              end in
            if Ascii.eqb e "u" then
              match s'' with
              | String h1 (String h2 (String h3 (String h4 r))) =>
                  match hexValue h1, hexValue h2, hexValue h3, hexValue h4 with
                  | Some a, Some b, Some c, Some d =>
                      match stringBody r with
                      | inl (us, r') =>
                          inl (inr (a * 4096 + b * 256 + c * 16 + d)%N :: us, r')
                      | inr err => inr err
                      end
                  | None, _, _, _ => invalid h1 "in \u hexadecimal character escape"
                  | _, None, _, _ => invalid h2 "in \u hexadecimal character escape"
                  | _, _, None, _ => invalid h3 "in \u hexadecimal character escape"
                  | _, _, _, None => invalid h4 "in \u hexadecimal character escape"
                  end
              | String h1 (String h2 (String h3 EmptyString)) =>
                  match hexValue h1, hexValue h2, hexValue h3 with
                  | Some _, Some _, Some _ => unexpectedEOF
                  | None, _, _ => invalid h1 "in \u hexadecimal character escape"
                  | _, None, _ => invalid h2 "in \u hexadecimal character escape"
                  | _, _, None => invalid h3 "in \u hexadecimal character escape"
                  end
              | String h1 (String h2 EmptyString) =>
                  match hexValue h1, hexValue h2 with
                  | Some _, Some _ => unexpectedEOF
                  | None, _ => invalid h1 "in \u hexadecimal character escape"
                  | _, None => invalid h2 "in \u hexadecimal character escape"
                  end
              | String h1 EmptyString =>
                  match hexValue h1 with
                  | Some _ => unexpectedEOF
                  | None => invalid h1 "in \u hexadecimal character escape"
                  end
              | EmptyString => unexpectedEOF
              end
            else if Ascii.eqb e DQUOTE then simple 34%nat
            else if Ascii.eqb e "\" then simple 92%nat
            else if Ascii.eqb e "/" then simple 47%nat
            else if Ascii.eqb e "b" then simple 8%nat
            else if Ascii.eqb e "f" then simple 12%nat
            else if Ascii.eqb e "n" then simple 10%nat
            else if Ascii.eqb e "r" then simple 13%nat
            else if Ascii.eqb e "t" then simple 9%nat
            else invalid e "in string escape code"
        end
      else if (nat_of_ascii c <? 32)%nat then invalid c "in string literal"
      else
        match stringBody s' with
        | inl (us, r) => inl (inl c :: us, r)
        | inr err => inr err
        end
  end.

Definition byteOf (n : N) : ascii := ascii_of_N n.

(** [utf8.EncodeRune]. *)
Definition utf8 (r : N) : string :=
  (if r <? 128 then String (byteOf r) ""
   else if r <? 2048 then
     String (byteOf (192 + r / 64)) (String (byteOf (128 + r mod 64)) "")
   else if r <? 65536 then
     String (byteOf (224 + r / 4096))
       (String (byteOf (128 + (r / 64) mod 64))
          (String (byteOf (128 + r mod 64)) ""))
   else
     String (byteOf (240 + r / 262144))
       (String (byteOf (128 + (r / 4096) mod 64))
          (String (byteOf (128 + (r / 64) mod 64))
             (String (byteOf (128 + r mod 64)) ""))))%N.

Definition replacementChar : N := 65533.

Definition isHighSurrogate (n : N) : bool := ((55296 <=? n) && (n <? 56320))%N.
Definition isLowSurrogate (n : N) : bool := ((56320 <=? n) && (n <? 57344))%N.

(** The bytes of a string literal: a surrogate pair is one rune, a
    surrogate on its own the replacement character. *)
Fixpoint unquote (us : list (ascii + N)) : string :=
  match us with
  | [] => ""
  | inl c :: us' => String c (unquote us')
  | inr hi :: us' =>
      if isHighSurrogate hi then
        match us' with
        | inr lo :: us'' =>
            if isLowSurrogate lo
            then utf8 (65536 + (hi - 55296) * 1024 + (lo - 56320))%N
                 +:+ unquote us''
            else utf8 replacementChar +:+ unquote us'
        | _ => utf8 replacementChar +:+ unquote us'
        end
      else if isLowSurrogate hi then utf8 replacementChar +:+ unquote us'
      else utf8 hi +:+ unquote us'
  end.

Definition stringLit (s : string) : Parsed string :=
  match stringBody s with
  | inl (us, r) => inl (unquote us, r)
  | inr err => inr err
  end.

(** The value at the head of [s], with what follows it.  The fuel
    bounds the recursion: an opening bracket takes two units and an
    element or member one. *)
Fixpoint value (fuel : nat) (s : string) : Parsed Value :=
  match fuel with
  | O => fail "exceeded max depth"
  | S fuel =>
      match skipSpace s with
      | EmptyString => unexpectedEOF
      | String c s' =>
          if Ascii.eqb c "{" then
            match skipSpace s' with
            | EmptyString => unexpectedEOF
            | String "}" r => inl (Object [], r)
            | _ =>
                match members fuel s' with
                | inl (ms, r) => inl (Object ms, r)
                | inr err => inr err
                end
            end
          else if Ascii.eqb c "[" then
            match skipSpace s' with
            | EmptyString => unexpectedEOF
            | String "]" r => inl (Array [], r)
            | _ =>
                match elements fuel s' with
                | inl (vs, r) => inl (Array vs, r)
                | inr err => inr err
                end
            end
          else if Ascii.eqb c DQUOTE then
            match stringLit s' with
            | inl (x, r) => inl (Str x, r)
            | inr err => inr err
            end
          else if Ascii.eqb c "n" then
            match literal "null" "ull" s' with
            | inl (_, r) => inl (Null, r)
            | inr err => inr err
            end
          else if Ascii.eqb c "t" then
            match literal "true" "rue" s' with
            | inl (_, r) => inl (Bool true, r)
            | inr err => inr err
            end
          else if Ascii.eqb c "f" then
            match literal "false" "alse" s' with
            | inl (_, r) => inl (Bool false, r)
            | inr err => inr err
            end
          else if Ascii.eqb c "-" || isDigit c then
            match number (String c s') with
            | inl (lit, r) => inl (Number lit, r)
            | inr err => inr err
            end
          else invalid c "looking for beginning of value"
      end
  end

with elements (fuel : nat) (s : string) : Parsed (list Value) :=
  match fuel with
  | O => fail "exceeded max depth"
  | S fuel =>
      match value fuel s with
      | inr err => inr err
      | inl (v, r) =>
          match skipSpace r with
          | EmptyString => unexpectedEOF
          | String c r' =>
              if Ascii.eqb c "]" then inl ([v], r')
              else if Ascii.eqb c "," then
                match elements fuel r' with
                | inl (vs, r'') => inl (v :: vs, r'')
                | inr err => inr err
                end
              else invalid c "after array element"
          end
      end
  end

with members (fuel : nat) (s : string) : Parsed (list (string * Value)) :=
  match fuel with
  | O => fail "exceeded max depth"
  | S fuel =>
      match skipSpace s with
      | EmptyString => unexpectedEOF
      | String q s' =>
          if negb (Ascii.eqb q DQUOTE)
          then invalid q "looking for beginning of object key string"
          else
            match stringLit s' with
            | inr err => inr err
            | inl (k, r) =>
                match skipSpace r with
                | EmptyString => unexpectedEOF
                | String c r' =>
                    if negb (Ascii.eqb c ":")
                    then invalid c "after object key"
                    else
                      match value fuel r' with
                      | inr err => inr err
                      | inl (v, r'') =>
                          match skipSpace r'' with
                          | EmptyString => unexpectedEOF
                          | String d r3 =>
                              if Ascii.eqb d "}" then inl ([(k, v)], r3)
                              else if Ascii.eqb d "," then
                                match members fuel r3 with
                                | inl (ms, r4) => inl ((k, v) :: ms, r4)
                                | inr err => inr err
                                end
                              else invalid d "after object key:value pair"
                          end
                      end
                end
            end
      end
  end.

Definition kind (v : Value) : string :=
  match v with
  | Null => "null"
  | Bool _ => "bool"
  | Number _ => "number"
  | Str _ => "string"
  | Array _ => "array"
  | Object _ => "object"
  end.

(** The tags of the fields of [CreateAPIRequest]. *)
Inductive Field := FType | FTitle | FBody | FPostID.

Definition tag (f : Field) : string :=
  match f with
  | FType => "type"
  | FTitle => "title"
  | FBody => "body"
  | FPostID => "post_id"
  end.

Definition fields : list Field := [FType; FTitle; FBody; FPostID].

(** A key folded the way [encoding/json] folds names: ASCII letters in
    lower case, the long s (U+017F, the bytes C5 BF) as [s] and the
    Kelvin sign (U+212A, the bytes E2 84 AA) as [k]; other bytes as they
    are. *)
Fixpoint foldName (key : string) : string :=
  match key with
  | EmptyString => EmptyString
  | String c rest =>
      let n := nat_of_ascii c in
      match rest with
      | String d rest' =>
          if ((n =? 197) && (nat_of_ascii d =? 191))%nat
          then String "s" (foldName rest')
          else
            match rest' with
            | String e rest'' =>
                if ((n =? 226) && (nat_of_ascii d =? 132)
                    && (nat_of_ascii e =? 170))%nat
                then String "k" (foldName rest'')
                else String (strings.lowerByte c) (foldName rest)
            | EmptyString => String (strings.lowerByte c) (foldName rest)
            end
      | EmptyString => String (strings.lowerByte c) EmptyString
      end
  end.

(** The field a key names: an exact match of its tag, else the first
    match without regard to case. *)
Definition field (key : string) : option Field :=
  match find (fun f => String.eqb (tag f) key) fields with
  | Some f => Some f
  | None => find (fun f => String.eqb (tag f) (foldName key)) fields
  end.

Definition set (f : Field) (x : string) (r : CreateAPIRequest)
  : CreateAPIRequest :=
  match f with
  | FType =>
      {| Type_ := x; Title := Title r; Body := Body r; PostID := PostID r |}
  | FTitle =>
      {| Type_ := Type_ r; Title := x; Body := Body r; PostID := PostID r |}
  | FBody =>
      {| Type_ := Type_ r; Title := Title r; Body := x; PostID := PostID r |}
  | FPostID =>
      {| Type_ := Type_ r; Title := Title r; Body := Body r; PostID := x |}
  end.

Definition zero : CreateAPIRequest :=
  {| Type_ := ""; Title := ""; Body := ""; PostID := "" |}.

Definition typeError (v : Value) (target : string) : error :=
  {| Error := "json: cannot unmarshal " +:+ kind v +:+ " into Go " +:+ target |}.

(** The members of an object stored into the struct, in order; the
    first value of a wrong type is the error reported, and decoding
    goes on after it. *)
Fixpoint store (ms : list (string * Value)) (r : CreateAPIRequest)
    (err : option error) : CreateAPIRequest * option error :=
  match ms with
  | [] => (r, err)
  | (k, v) :: ms' =>
      match field k with
      | None => store ms' r err
      | Some f =>
          match v with
          | Str x => store ms' (set f x r) err
          | Null => store ms' r err
          | _ =>
              let e :=
                typeError v ("struct field CreateAPIRequest." +:+ tag f
                             +:+ " of type string") in
              store ms' r (Some (default e err))
          end
      end
  end.

(** [json.NewDecoder(body).Decode(&createRequest)] for a nil
    [createRequest]: the pointer afterwards, and the error. *)
Definition Decode (body : string) : option CreateAPIRequest * option error :=
  match skipSpace body with
  | EmptyString => (None, Some {| Error := "EOF" |})
  | _ =>
      match value (2 * String.length body + 2) body with
      | inr err => (None, Some err)
      | inl (Null, _) => (None, None)
      | inl (Object ms, _) =>
          let '(r, err) := store ms zero None in (Some r, err)
      | inl (v, _) =>
          (Some zero,
           Some (typeError v "value of type main.CreateAPIRequest"))
      end
  end.

End json.


(** ** A reference [net/url]

    [Parse] and [String] after the package's source as of Go 1.12, to run
    the handler on examples.  Error texts are abbreviated where Go quotes
    the offending bytes with [strconv.Quote]. *)

Module neturl.

Import url.

Inductive encoding :=
| encodePath
| encodePathSegment
| encodeHost
| encodeZone
| encodeUserPassword
| encodeQueryComponent
| encodeFragment.

Definition isHostMode (mode : encoding) : bool :=
  match mode with
  | encodeHost | encodeZone => true
  | _ => false
  end.

Definition oneOf (c : ascii) (set : string) : bool :=
  existsb (Ascii.eqb c) (list_ascii_of_string set).

Definition isAlnum (c : ascii) : bool :=
  let n := nat_of_ascii c in
  (((65 <=? n) && (n <=? 90)) || ((97 <=? n) && (n <=? 122))
   || ((48 <=? n) && (n <=? 57)))%nat.

(** [shouldEscape(c, mode)]: whether the byte must be percent-encoded
    in that part of a URL. *)
Definition shouldEscape (c : ascii) (mode : encoding) : bool :=
  if isAlnum c then false
  else if isHostMode mode
          && (oneOf c "!$&'()*+,;=:[]<>" || Ascii.eqb c DQUOTE)
  then false
  else if oneOf c "-_.~" then false
  else if oneOf c "$&+,/:;=?@" then
    match mode with
    | encodePath => Ascii.eqb c "?"
    | encodePathSegment => oneOf c "/;,?"
    | encodeUserPassword => oneOf c "@/?:"
    | encodeQueryComponent => true
    | encodeFragment => false
    | encodeHost | encodeZone => true
    end
  else if match mode with encodeFragment => oneOf c "!()*" | _ => false end
  then false
  else true.

Definition hexDigit (n : nat) : ascii :=
  match String.get n "0123456789ABCDEF" with
  | Some c => c
  | None => "0"%char
  end.

(** [escape(s, mode)]. *)
Fixpoint escape (s : string) (mode : encoding) : string :=
  match s with
  | EmptyString => EmptyString
  | String c s' =>
      if shouldEscape c mode then
        match mode with
        | encodeQueryComponent =>
            if Ascii.eqb c " " then String "+" (escape s' mode)
            else
              String "%" (String (hexDigit (nat_of_ascii c / 16))
                (String (hexDigit (nat_of_ascii c mod 16)) (escape s' mode)))
        | _ =>
            String "%" (String (hexDigit (nat_of_ascii c / 16))
              (String (hexDigit (nat_of_ascii c mod 16)) (escape s' mode)))
        end
      else String c (escape s' mode)
  end.

Definition quote (s : string) : string :=
  String DQUOTE s +:+ String DQUOTE "".

Definition EscapeError {A} (s : string) : A + error :=
  inr {| Error := "invalid URL escape " +:+ quote s |}.

Definition InvalidHostError {A} (s : string) : A + error :=
  inr {| Error := "invalid character " +:+ quote s +:+ " in host name" |}.

Definition unhex (c : ascii) : option nat := N.to_nat <$> json.hexValue c.

(** [unescape(s, mode)]: the percent-escapes decoded, or the first
    malformed or forbidden one. *)
Fixpoint unescape (s : string) (mode : encoding) : string + error :=
  match s with
  | EmptyString => inl EmptyString
  | String c s' =>
      if Ascii.eqb c "%" then
        match s' with
        | String a (String b rest) =>
            match unhex a, unhex b with
            | Some x, Some y =>
                let enc := String c (String a (String b "")) in
                let v := ascii_of_nat (x * 16 + y) in
                if match mode with
                   | encodeHost => (x <? 8)%nat && negb (String.eqb enc "%25")
                   | encodeZone =>
                       negb (String.eqb enc "%25") && negb (Ascii.eqb v " ")
                       && shouldEscape v encodeHost
                   | _ => false
                   end
                then EscapeError enc
                else match unescape rest mode with
                     | inl t => inl (String v t)
                     | inr e => inr e
                     end
            | _, _ => EscapeError (strings.take 3 s)
            end
        | _ => EscapeError (strings.take 3 s)
        end
      else if isHostMode mode && (nat_of_ascii c <? 128)%nat
              && shouldEscape c encodeHost
      then InvalidHostError (String c "")
      else
        let d :=
          match mode with
          | encodeQueryComponent => if Ascii.eqb c "+" then " "%char else c
          | _ => c
          end in
        match unescape s' mode with
        | inl t => inl (String d t)
        | inr e => inr e
        end
  end.

(** [split(s, c, cutc)]: [s] around the first [c]. *)
Definition split (s : string) (c : ascii) (cutc : bool) : string * string :=
  match strings.IndexByte s c with
  | None => (s, "")
  | Some i =>
      (strings.take i s, strings.drop (if cutc then S i else i) s)
  end.

Definition stringContainsCTLByte (s : string) : bool :=
  existsb (fun b => (nat_of_ascii b <? 32)%nat || (nat_of_ascii b =? 127)%nat)
    (list_ascii_of_string s).

Definition isAlpha (c : ascii) : bool :=
  let n := nat_of_ascii c in
  (((65 <=? n) && (n <=? 90)) || ((97 <=? n) && (n <=? 122)))%nat.

(** [getscheme(rawurl)]: the scheme and what follows its colon. *)
Fixpoint getschemeFrom (i : nat) (rawurl s : string)
  : (string * string) + error :=
  match s with
  | EmptyString => inl ("", rawurl)
  | String c s' =>
      if isAlpha c then getschemeFrom (S i) rawurl s'
      else if json.isDigit c || oneOf c "+-." then
        match i with
        | O => inl ("", rawurl)
        | _ => getschemeFrom (S i) rawurl s'
        end
      else if Ascii.eqb c ":" then
        match i with
        | O => inr {| Error := "missing protocol scheme" |}
        | _ => inl (strings.take i rawurl, s')
        end
      else inl ("", rawurl)
  end.

Definition getscheme (rawurl : string) : (string * string) + error :=
  getschemeFrom 0 rawurl rawurl.

Definition validOptionalPort (port : string) : bool :=
  match port with
  | EmptyString => true
  | String c digits =>
      Ascii.eqb c ":" && forallb json.isDigit (list_ascii_of_string digits)
  end.

Definition validUserinfo (s : string) : bool :=
  forallb (fun r => isAlnum r || oneOf r "-._:~!$&'()*+,;=%@")
    (list_ascii_of_string s).

Definition invalidPort {A} (colonPort : string) : A + error :=
  inr {| Error := "invalid port " +:+ quote colonPort +:+ " after host" |}.

(** The first index of the three bytes [%25] in [s]. *)
Fixpoint indexZone (s : string) : option nat :=
  match s with
  | EmptyString => None
  | String _ s' =>
      if strings.HasPrefix s "%25" then Some 0%nat else S <$> indexZone s'
  end.

(** [parseHost(host)]. *)
Definition parseHost (host : string) : string + error :=
  if strings.HasPrefix host "[" then
    match strings.LastIndexByte host "]" with
    | None => inr {| Error := "missing ']' in host" |}
    | Some i =>
        let colonPort := strings.drop (S i) host in
        if negb (validOptionalPort colonPort) then invalidPort colonPort
        else
          match indexZone (strings.take i host) with
          | Some zone =>
              match unescape (strings.take zone host) encodeHost with
              | inr e => inr e
              | inl host1 =>
                  match unescape (strings.take (i - zone) (strings.drop zone host))
                          encodeZone with
                  | inr e => inr e
                  | inl host2 =>
                      match unescape (strings.drop i host) encodeHost with
                      | inr e => inr e
                      | inl host3 => inl (host1 +:+ host2 +:+ host3)
                      end
                  end
              end
          | None => unescape host encodeHost
          end
    end
  else
    match strings.LastIndexByte host ":" with
    | Some i =>
        let colonPort := strings.drop i host in
        if negb (validOptionalPort colonPort) then invalidPort colonPort
        else unescape host encodeHost
    | None => unescape host encodeHost
    end.

(** [parseAuthority(authority)]. *)
Definition parseAuthority (authority : string)
  : (option Userinfo * string) + error :=
  match strings.LastIndexByte authority "@" with
  | None =>
      match parseHost authority with
      | inl host => inl (None, host)
      | inr e => inr e
      end
  | Some i =>
      match parseHost (strings.drop (S i) authority) with
      | inr e => inr e
      | inl host =>
          let userinfo := strings.take i authority in
          if negb (validUserinfo userinfo)
          then inr {| Error := "net/url: invalid userinfo" |}
          else
            match strings.IndexByte userinfo ":" with
            | None =>
                match unescape userinfo encodeUserPassword with
                | inr e => inr e
                | inl u =>
                    inl (Some {| username := u; password := "";
                                 passwordSet := false |}, host)
                end
            | Some _ =>
                let '(name, pass) := split userinfo ":" true in
                match unescape name encodeUserPassword with
                | inr e => inr e
                | inl u =>
                    match unescape pass encodeUserPassword with
                    | inr e => inr e
                    | inl pw =>
                        inl (Some {| username := u; password := pw;
                                     passwordSet := true |}, host)
                    end
                end
            end
      end
  end.

Definition empty : URL :=
  {| Scheme := ""; Opaque := ""; User := None; Host := ""; Path := "";
     RawPath := ""; ForceQuery := false; RawQuery := ""; Fragment := "" |}.

Definition hasSuffixByte (s : string) (c : ascii) : bool :=
  match strings.LastIndexByte s c with
  | Some i => (S i =? String.length s)%nat
  | None => false
  end.

(** [parse(rawurl, false)]. *)
Definition parse (rawurl : string) : URL + error :=
  if stringContainsCTLByte rawurl
  then inr {| Error := "net/url: invalid control character in URL" |}
  else if String.eqb rawurl "*" then
    inl (setPathField empty "*")
  else
    match getscheme rawurl with
    | inr e => inr e
    | inl (scheme, rest) =>
        let scheme := strings.ToLower scheme in
        let '(forceQuery, (rest, rawQuery)) :=
          if hasSuffixByte rest "?" && (strings.Count rest "?" =? 1)%nat
          then (true, (strings.take (String.length rest - 1) rest, ""))
          else (false, split rest "?" true) in
        let withQuery (u : URL) : URL :=
          {| Scheme := scheme; Opaque := Opaque u; User := User u;
             Host := Host u; Path := Path u; RawPath := RawPath u;
             ForceQuery := forceQuery; RawQuery := rawQuery;
             Fragment := "" |} in
        if negb (strings.HasPrefix rest "/") && negb (String.eqb scheme "")
        then
          inl (withQuery
                 {| Scheme := ""; Opaque := rest; User := None; Host := "";
                    Path := ""; RawPath := ""; ForceQuery := false;
                    RawQuery := ""; Fragment := "" |})
        else if negb (strings.HasPrefix rest "/")
                && match strings.IndexByte rest ":", strings.IndexByte rest "/" with
                   | Some colon, Some slash => (colon <? slash)%nat
                   | Some _, None => true
                   | None, _ => false
                   end
        then inr {| Error := "first path segment in URL cannot contain colon" |}
        else
          match
            if (negb (String.eqb scheme "")
                || negb (strings.HasPrefix rest "///"))
               && strings.HasPrefix rest "//"
            then
              let '(authority, rest) := split (strings.drop 2 rest) "/" false in
              match parseAuthority authority with
              | inl (user, host) => inl (user, host, rest)
              | inr e => inr e
              end
            else inl (None, "", rest)
          with
          | inr e => inr e
          | inl (user, host, rest) =>
              match unescape rest encodePath with
              | inr e => inr e
              | inl p =>
                  inl (withQuery
                         {| Scheme := ""; Opaque := ""; User := user;
                            Host := host; Path := p;
                            RawPath :=
                              if String.eqb rest (escape p encodePath)
                              then "" else rest;
                            ForceQuery := false; RawQuery := "";
                            Fragment := "" |})
              end
          end
    end.

Definition parseError (u : string) (e : error) : error :=
  {| Error := "parse " +:+ u +:+ ": " +:+ Error e |}.

(** [url.Parse(rawurl)]. *)
Definition Parse (rawurl : string) : URL + error :=
  let '(u, frag) := split rawurl "#" true in
  match parse u with
  | inr e => inr (parseError u e)
  | inl url =>
      if String.eqb frag "" then inl url
      else
        match unescape frag encodeFragment with
        | inr e => inr (parseError rawurl e)
        | inl f =>
            inl {| Scheme := Scheme url; Opaque := Opaque url;
                   User := User url; Host := Host url; Path := Path url;
                   RawPath := RawPath url; ForceQuery := ForceQuery url;
                   RawQuery := RawQuery url; Fragment := f |}
        end
  end.

(** [validEncodedPath(s)]. *)
Definition validEncodedPath (s : string) : bool :=
  forallb (fun c => oneOf c "!$&'()*+,;=:@[]%" || negb (shouldEscape c encodePath))
    (list_ascii_of_string s).

(** The method [EscapedPath]. *)
Definition EscapedPath (u : URL) : string :=
  if negb (String.eqb (RawPath u) "") && validEncodedPath (RawPath u)
     && match unescape (RawPath u) encodePath with
        | inl p => String.eqb p (Path u)
        | inr _ => false
        end
  then RawPath u
  else if String.eqb (Path u) "*" then "*"
  else escape (Path u) encodePath.

(** The method [String] of [Userinfo]. *)
Definition Userinfo_String (ui : Userinfo) : string :=
  escape (username ui) encodeUserPassword
  +:+ (if passwordSet ui
       then ":" +:+ escape (password ui) encodeUserPassword else "").

(** The method [String] of [URL]. *)
Definition String_ (u : URL) : string :=
  let buf := if String.eqb (Scheme u) "" then "" else Scheme u +:+ ":" in
  let buf :=
    if negb (String.eqb (Opaque u) "") then buf +:+ Opaque u
    else
      let buf :=
        if negb (String.eqb (Scheme u) "") || negb (String.eqb (Host u) "")
           || bool_decide (is_Some (User u))
        then
          buf
          +:+ (if negb (String.eqb (Host u) "")
                  || negb (String.eqb (Path u) "")
                  || bool_decide (is_Some (User u))
               then "//" else "")
          +:+ match User u with
              | Some ui => Userinfo_String ui +:+ "@"
              | None => ""
              end
          +:+ (if String.eqb (Host u) "" then ""
               else escape (Host u) encodeHost)
        else buf in
      let path := EscapedPath u in
      let buf :=
        match path with
        | String c _ =>
            if negb (Ascii.eqb c "/") && negb (String.eqb (Host u) "")
            then buf +:+ "/" else buf
        | EmptyString => buf
        end in
      let buf :=
        if String.eqb buf ""
           && match strings.IndexByte path ":" with
              | Some i =>
                  bool_decide (strings.IndexByte (strings.take i path) "/" = None)
              | None => false
              end
        then buf +:+ "./" else buf in
      buf +:+ path in
  let buf :=
    if ForceQuery u || negb (String.eqb (RawQuery u) "")
    then buf +:+ "?" +:+ RawQuery u else buf in
  if String.eqb (Fragment u) "" then buf
  else buf +:+ "#" +:+ escape (Fragment u) encodeFragment.

End neturl.

(** The reference libraries as a [Library]. *)
Definition reference : Library :=
  {| json_Decode := json.Decode;
     url_Parse := neturl.Parse;
     URL_String := neturl.String_ |}.

(** ** The values the handler computes *)

(** The caller's identity, as the server sets it on the request. *)
Definition userIDOf (r : http.Request) : string :=
  http.Header_Get (http.ReqHeader r) "Mattermost-User-ID".

(** The repository configured for a request type. *)
Definition repositoryFor (config : configuration) (type : string) : string :=
  if String.eqb type "admin" then AdminRepository config
  else if String.eqb type "developer" then DeveloperRepository config
  else if String.eqb type "handbook" then HandbookRepository config
  else "".

Definition labelsOf (config : configuration) : list string :=
  if negb (String.eqb (Labels config) "")
  then strings.Split (Labels config) ","
  else [].

Definition rootIDOf (docPost : model.Post) : string :=
  if String.eqb (model.RootId docPost) "" then model.Id docPost
  else model.RootId docPost.

Definition permalinkOf (u : url.URL) (docPost : model.Post) : url.URL :=
  url.setPathField u
    (path.Join [url.Path u; "_redirect"; "pl"; model.Id docPost]).

Definition issueRequestOf (lib : Library) (config : configuration)
    (createRequest : CreateAPIRequest) (user : model.User)
    (siteURL : string) (permalink : url.URL) : github.IssueRequest :=
  {| github.Title :=
       Some ("Request for Documentation: " +:+ Title createRequest);
     github.Body :=
       Some (fmt.Sprintf issueBodyFormat
               [model.Username user; siteURL; Body createRequest;
                URL_String lib permalink]);
     github.Labels := Some (labelsOf config);
     github.Assignee := None;
     github.State := None;
     github.Milestone := None;
     github.Assignees := None |}.

Definition confirmationOf (lib : Library) (userID : string)
    (docPost : model.Post) (permalink : url.URL)
    (issue : option github.Issue) : model.Post :=
  {| model.Id := "";
     model.UserId := userID;
     model.ChannelId := model.ChannelId docPost;
     model.RootId := rootIDOf docPost;
     model.ParentId := "";
     model.PostMessage :=
       fmt.Sprintf postMessageFormat
         [URL_String lib permalink; github.GetHTMLURL issue] |}.

(** A response with a status and nothing else. *)
Definition answered (code : Z) : http.ResponseWriter :=
  {| http.header := ∅; http.status := Some code; http.body := "" |}.

(** The response of [http.Error(w, "Not authorized", 401)]. *)
Definition unauthorized : http.ResponseWriter :=
  http.Error http.newResponse "Not authorized" http.StatusUnauthorized.

(** ** The exits of the handler

    Every way [handleCreate] can end, with the conditions on the request
    and on the answers of the collaborators that lead there, the calls
    made and the response. *)

Section Exits.

Context (lib : Library) (p : Plugin) (r : http.Request).

(** The request passed authentication and decoding. *)
Definition Decoded (req : CreateAPIRequest) : Prop :=
  userIDOf r <> "" /\ json_Decode lib (http.Body r) = (Some req, None).

(** ... and its type names a repository string of two parts. *)
Definition Resolved (req : CreateAPIRequest) (owner repo : string) : Prop :=
  Decoded req
  /\ repositoryFor (getConfiguration p) (Type_ req) <> ""
  /\ strings.Split (repositoryFor (getConfiguration p) (Type_ req)) "/"
     = [owner; repo].

(** ... and the user and the message were fetched without error. *)
Definition Fetched (req : CreateAPIRequest) (owner repo : string)
    (user : option model.User) (docPost : model.Post) : Prop :=
  Resolved req owner repo
  /\ plugin.GetUser (API p) (userIDOf r) = (user, None)
  /\ plugin.GetPost (API p) (PostID req) = (Some docPost, None).

(** ... and the permalink and the issue request were built. *)
Definition Composed (req : CreateAPIRequest) (owner repo : string)
    (user : model.User) (docPost : model.Post) (siteURL : string)
    (u : url.URL) : Prop :=
  Fetched req owner repo (Some user) docPost
  /\ (exists serverConfig,
        plugin.GetConfig (API p) = Some serverConfig
        /\ model.SiteURL (model.ServiceSettings_ serverConfig) = Some siteURL)
  /\ url_Parse lib siteURL = inl u.

Definition lookups (req : CreateAPIRequest) : list Call :=
  [ReadConfiguration; CallGetUser (userIDOf r); CallGetConfig;
   CallGetPost (PostID req)].

Inductive Exit : Outcome -> State -> Prop :=
| ExitUnauthorized :
    userIDOf r = "" ->
    Exit Completed {| w := unauthorized; calls := [] |}
| ExitDecodeFailed ptr err :
    userIDOf r <> "" ->
    json_Decode lib (http.Body r) = (ptr, Some err) ->
    Exit Completed
      {| w := answered http.StatusInternalServerError;
         calls := [LogError ("Unable to decode JSON err=" +:+ Error err)] |}
| ExitNilRequest :
    userIDOf r <> "" ->
    json_Decode lib (http.Body r) = (None, None) ->
    Exit Panicked {| w := http.newResponse; calls := [ReadConfiguration] |}
| ExitBadRequest req :
    Decoded req ->
    repositoryFor (getConfiguration p) (Type_ req) = "" ->
    Exit Completed
      {| w := answered http.StatusBadRequest; calls := [ReadConfiguration] |}
| ExitBadRepository req :
    Decoded req ->
    repositoryFor (getConfiguration p) (Type_ req) <> "" ->
    length (strings.Split (repositoryFor (getConfiguration p) (Type_ req)) "/")
    <> 2%nat ->
    Exit Completed
      {| w := answered http.StatusInternalServerError;
         calls :=
           [ReadConfiguration;
            LogError ("Bad configured repo: "
                      +:+ repositoryFor (getConfiguration p) (Type_ req))] |}
| ExitUserFailed req owner repo user appErr :
    Resolved req owner repo ->
    plugin.GetUser (API p) (userIDOf r) = (user, Some appErr) ->
    Exit Completed
      {| w := answered http.StatusInternalServerError;
         calls :=
           [ReadConfiguration; CallGetUser (userIDOf r);
            LogError ("Unable to get user err=" +:+ model.AppError_Error appErr)] |}
| ExitPostFailed req owner repo user docPost appErr :
    Resolved req owner repo ->
    plugin.GetUser (API p) (userIDOf r) = (user, None) ->
    plugin.GetPost (API p) (PostID req) = (docPost, Some appErr) ->
    Exit Completed
      {| w := answered http.StatusInternalServerError;
         calls :=
           lookups req
           ++ [LogError ("Unable to get post err="
                         +:+ model.AppError_Error appErr)] |}
| ExitNilPost req owner repo user :
    Resolved req owner repo ->
    plugin.GetUser (API p) (userIDOf r) = (user, None) ->
    plugin.GetPost (API p) (PostID req) = (None, None) ->
    Exit Panicked {| w := http.newResponse; calls := lookups req |}
| ExitNilConfig req owner repo user docPost :
    Fetched req owner repo user docPost ->
    plugin.GetConfig (API p) = None ->
    Exit Panicked {| w := http.newResponse; calls := lookups req |}
| ExitNilSiteURL req owner repo user docPost serverConfig :
    Fetched req owner repo user docPost ->
    plugin.GetConfig (API p) = Some serverConfig ->
    model.SiteURL (model.ServiceSettings_ serverConfig) = None ->
    Exit Panicked {| w := http.newResponse; calls := lookups req |}
| ExitParseFailed req owner repo user docPost serverConfig siteURL e :
    Fetched req owner repo user docPost ->
    plugin.GetConfig (API p) = Some serverConfig ->
    model.SiteURL (model.ServiceSettings_ serverConfig) = Some siteURL ->
    url_Parse lib siteURL = inr e ->
    Exit Panicked {| w := http.newResponse; calls := lookups req |}
| ExitNilUser req owner repo docPost serverConfig siteURL u :
    Fetched req owner repo None docPost ->
    plugin.GetConfig (API p) = Some serverConfig ->
    model.SiteURL (model.ServiceSettings_ serverConfig) = Some siteURL ->
    url_Parse lib siteURL = inl u ->
    Exit Panicked {| w := http.newResponse; calls := lookups req |}
| ExitIssueFailed req owner repo user docPost siteURL u issue err :
    Composed req owner repo user docPost siteURL u ->
    let issueRequest :=
      issueRequestOf lib (getConfiguration p) req user siteURL
        (permalinkOf u docPost) in
    Issues_Create p owner repo issueRequest = (issue, Some err) ->
    Exit Completed
      {| w := answered http.StatusInternalServerError;
         calls :=
           lookups req
           ++ [CallIssuesCreate owner repo issueRequest;
               LogError ("Error creating GitHub issue err=" +:+ Error err)] |}
| ExitReplyFailed req owner repo user docPost siteURL u issue created appErr :
    Composed req owner repo user docPost siteURL u ->
    let issueRequest :=
      issueRequestOf lib (getConfiguration p) req user siteURL
        (permalinkOf u docPost) in
    let post :=
      confirmationOf lib (userIDOf r) docPost (permalinkOf u docPost) issue in
    Issues_Create p owner repo issueRequest = (issue, None) ->
    plugin.CreatePost (API p) post = (created, Some appErr) ->
    Exit Completed
      {| w := answered http.StatusInternalServerError;
         calls :=
           lookups req
           ++ [CallIssuesCreate owner repo issueRequest; CallCreatePost post;
               LogError ("Unable to create post err="
                         +:+ model.AppError_Error appErr)] |}
| ExitDone req owner repo user docPost siteURL u issue created :
    Composed req owner repo user docPost siteURL u ->
    let issueRequest :=
      issueRequestOf lib (getConfiguration p) req user siteURL
        (permalinkOf u docPost) in
    let post :=
      confirmationOf lib (userIDOf r) docPost (permalinkOf u docPost) issue in
    Issues_Create p owner repo issueRequest = (issue, None) ->
    plugin.CreatePost (API p) post = (created, None) ->
    Exit Completed
      {| w := answered http.StatusOK;
         calls :=
           lookups req
           ++ [CallIssuesCreate owner repo issueRequest; CallCreatePost post] |}.

End Exits.

(** ** What the properties speak of *)

(** The repository string the configuration holds for a request type:
    one per type [admin], [developer] and [handbook]. *)
Inductive Configured (config : configuration) : string -> string -> Prop :=
| ConfiguredAdmin : Configured config "admin" (AdminRepository config)
| ConfiguredDeveloper :
    Configured config "developer" (DeveloperRepository config)
| ConfiguredHandbook :
    Configured config "handbook" (HandbookRepository config).

(** [sub] occurs in [s]. *)
Definition Contains (s sub : string) : Prop :=
  exists before after, s = before +:+ sub +:+ after.

(** The issues the handler asked GitHub to create, in order. *)
Definition issuesCreated (cs : list Call)
  : list (string * string * github.IssueRequest) :=
  omap (fun c => match c with
                 | CallIssuesCreate owner repo issue => Some (owner, repo, issue)
                 | _ => None
                 end) cs.

(** The posts the handler asked the server to create, in order. *)
Definition postsCreated (cs : list Call) : list model.Post :=
  omap (fun c => match c with
                 | CallCreatePost post => Some post
                 | _ => None
                 end) cs.

(** The kind of a call, whatever its arguments. *)
Inductive Kind :=
| KReadConfiguration | KLogError | KGetUser | KGetConfig | KGetPost
| KIssuesCreate | KCreatePost.

#[global] Instance Kind_eq_dec : EqDecision Kind.
Proof. solve_decision. Defined.

Definition kindOf (c : Call) : Kind :=
  match c with
  | ReadConfiguration => KReadConfiguration
  | LogError _ => KLogError
  | CallGetUser _ => KGetUser
  | CallGetConfig => KGetConfig
  | CallGetPost _ => KGetPost
  | CallIssuesCreate _ _ _ => KIssuesCreate
  | CallCreatePost _ => KCreatePost
  end.


(** The texts the handler logs, before the cause. *)
Definition logPrefixes : list string :=
  ["Unable to decode JSON err="; "Bad configured repo: ";
   "Unable to get user err="; "Unable to get post err=";
   "Error creating GitHub issue err="; "Unable to create post err="].


(** The elements of a slash-separated path, empty ones left out. *)
Definition elements (p : string) : list string :=
  List.filter (fun s => negb (String.eqb s "")) (strings.Split p "/").

(** A path element that names something: not empty, not [.], not [..],
    and without slash. *)
Definition plain (s : string) : Prop :=
  s <> "" /\ s <> "." /\ s <> ".." /\ strings.Count s "/" = 0%nat.


(** The texts the handler logs, each with its cause: the error of the
    decoder, the repository string that does not split in two, the error
    of the user or message lookup, of GitHub for an issue the handler
    asked for, or of the server for a post the handler asked for. *)
Inductive Logged (lib : Library) (p : Plugin) (r : http.Request) (st : State)
  : string -> Prop :=
| LoggedDecode ptr err :
    json_Decode lib (http.Body r) = (ptr, Some err) ->
    Logged lib p r st ("Unable to decode JSON err=" +:+ Error err)
| LoggedRepository req ownerAndRepo :
    json_Decode lib (http.Body r) = (Some req, None) ->
    Configured (getConfiguration p) (Type_ req) ownerAndRepo ->
    length (strings.Split ownerAndRepo "/") <> 2%nat ->
    Logged lib p r st ("Bad configured repo: " +:+ ownerAndRepo)
| LoggedUser user appErr :
    plugin.GetUser (API p)
      (http.Header_Get (http.ReqHeader r) "Mattermost-User-ID")
    = (user, Some appErr) ->
    Logged lib p r st
      ("Unable to get user err=" +:+ model.AppError_Error appErr)
| LoggedPost req docPost appErr :
    json_Decode lib (http.Body r) = (Some req, None) ->
    plugin.GetPost (API p) (PostID req) = (docPost, Some appErr) ->
    Logged lib p r st
      ("Unable to get post err=" +:+ model.AppError_Error appErr)
| LoggedIssue owner repo issueRequest issue err :
    In (CallIssuesCreate owner repo issueRequest) (calls st) ->
    Issues_Create p owner repo issueRequest = (issue, Some err) ->
    Logged lib p r st ("Error creating GitHub issue err=" +:+ Error err)
| LoggedReply post created appErr :
    In (CallCreatePost post) (calls st) ->
    plugin.CreatePost (API p) post = (created, Some appErr) ->
    Logged lib p r st
      ("Unable to create post err=" +:+ model.AppError_Error appErr).

(** ** A scenario to run

    The request of the specification's end-to-end example and a world
    around it: the plugin configured for the developer repository, a
    user [U1], a message [M1] that starts no thread, the site at
    [https://chat.example.com], and collaborators that accept every
    call. *)

Module Scenario.

Definition quoted (s : string) : string :=
  String DQUOTE s +:+ String DQUOTE "".

(** The JSON object with [type] developer, [title] T, [body] B and
    [post_id] M1. *)
Definition body : string :=
  "{" +:+ quoted "type" +:+ ":" +:+ quoted "developer" +:+ ","
  +:+ quoted "title" +:+ ":" +:+ quoted "T" +:+ ","
  +:+ quoted "body" +:+ ":" +:+ quoted "B" +:+ ","
  +:+ quoted "post_id" +:+ ":" +:+ quoted "M1" +:+ "}".

Definition createRequest : CreateAPIRequest :=
  {| Type_ := "developer"; Title := "T"; Body := "B"; PostID := "M1" |}.

Definition siteURL : string := "https://chat.example.com".

(** The site URL, parsed. *)
Definition site : url.URL :=
  {| url.Scheme := "https"; url.Opaque := ""; url.User := None;
     url.Host := "chat.example.com"; url.Path := ""; url.RawPath := "";
     url.ForceQuery := false; url.RawQuery := ""; url.Fragment := "" |}.

Definition permalink : string := "https://chat.example.com/_redirect/pl/M1".

Definition config (developer labels : string) : configuration :=
  {| GitHubAPIKey := "token";
     AdminRepository := "";
     DeveloperRepository := developer;
     HandbookRepository := "org/handbook";
     Labels := labels |}.

Definition user : model.User :=
  {| model.UserId_ := "U1"; model.Username := "alice";
     model.Nickname := "Al"; model.FirstName := "Alice";
     model.LastName := "Liddell" |}.

Definition message (rootId : string) : model.Post :=
  {| model.Id := "M1"; model.UserId := "U2"; model.ChannelId := "CH1";
     model.RootId := rootId; model.ParentId := rootId;
     model.PostMessage := "How do I rotate the signing key?" |}.

Definition notFound : model.AppError :=
  {| model.Where := "SqlStore.Get"; model.Message := "not found";
     model.DetailedError := "" |}.

Definition api (rootId : string) (site : option string) : plugin.API :=
  {| plugin.GetUser := fun id =>
       if String.eqb id "U1" then (Some user, None) else (None, Some notFound);
     plugin.GetPost := fun id =>
       if String.eqb id "M1" then (Some (message rootId), None)
       else (None, Some notFound);
     plugin.GetConfig :=
       Some {| model.ServiceSettings_ := {| model.SiteURL := site |} |};
     plugin.CreatePost := fun post => (Some post, None) |}.

Definition issue : github.Issue :=
  {| github.Number := Some 7;
     github.HTMLURL := Some "https://github.com/org/repo/issues/7" |}.

Definition plugin (developer labels rootId : string) (site : option string)
  : Plugin :=
  {| API := api rootId site;
     getConfiguration := config developer labels;
     Issues_Create := fun _ _ _ => (Some issue, None) |}.

(** The plugin of the example. *)
Definition p : Plugin := plugin "org/repo" "a,b,c" "" (Some siteURL).

(** The same plugin with another API key and other repositories for the
    types [admin] and [handbook]. *)
Definition other : Plugin :=
  {| API := API p;
     getConfiguration :=
       {| GitHubAPIKey := "another token";
          AdminRepository := "org/admin";
          DeveloperRepository := "org/repo";
          HandbookRepository := "";
          Labels := "a,b,c" |};
     Issues_Create := Issues_Create p |}.

(** The plugin of the example with a GitHub that refuses every issue. *)
Definition refused : Plugin :=
  {| API := API p;
     getConfiguration := getConfiguration p;
     Issues_Create := fun _ _ _ => (None, Some {| Error := "401 Bad credentials" |}) |}.

(** The plugin of the example with a server that refuses every post. *)
Definition readOnly : Plugin :=
  {| API :=
       {| plugin.GetUser := plugin.GetUser (API p);
          plugin.GetPost := plugin.GetPost (API p);
          plugin.GetConfig := plugin.GetConfig (API p);
          plugin.CreatePost := fun _ => (None, Some notFound) |};
     getConfiguration := getConfiguration p;
     Issues_Create := Issues_Create p |}.

Definition request (userID : list string) (body : string) : http.Request :=
  {| http.URL_Path := "/create";
     http.ReqHeader := {[ "Mattermost-User-Id" := userID ]};
     http.Body := body |}.

(** The request of the example. *)
Definition r : http.Request := request ["U1"] body.

(** The issue the example asks for. *)
Definition issueRequest : github.IssueRequest :=
  {| github.Title := Some "Request for Documentation: T";
     github.Body :=
       Some (fmt.Sprintf issueBodyFormat ["alice"; siteURL; "B"; permalink]);
     github.Labels := Some ["a"; "b"; "c"];
     github.Assignee := None;
     github.State := None;
     github.Milestone := None;
     github.Assignees := None |}.

(** The confirmation the example posts. *)
Definition reply : model.Post :=
  {| model.Id := "";
     model.UserId := "U1";
     model.ChannelId := "CH1";
     model.RootId := "M1";
     model.ParentId := "";
     model.PostMessage :=
       fmt.Sprintf postMessageFormat
         [permalink; "https://github.com/org/repo/issues/7"] |}.

(** A handler run to its end. *)
Definition final (p : Plugin) (r : http.Request) : State :=
  (serve (handleCreate reference p r)).2.

End Scenario.

(** ** Library facts *)

Lemma Configured_repositoryFor config type repo :
  Configured config type repo -> repositoryFor config type = repo.
Proof. destruct 1; reflexivity. Qed.

Lemma repositoryFor_Configured config type :
  repositoryFor config type <> "" ->
  Configured config type (repositoryFor config type).
Proof.
  unfold repositoryFor.
  destruct (String.eqb_spec type "admin") as [->|_]; [constructor|].
  destruct (String.eqb_spec type "developer") as [->|_]; [constructor|].
  destruct (String.eqb_spec type "handbook") as [->|_]; [constructor|].
  congruence.
Qed.

Lemma repositoryFor_unknown config type :
  ~ In type ["admin"; "developer"; "handbook"] ->
  repositoryFor config type = "".
Proof.
  intros H. unfold repositoryFor.
  destruct (String.eqb_spec type "admin") as [->|_]; [cbn in H; tauto|].
  destruct (String.eqb_spec type "developer") as [->|_]; [cbn in H; tauto|].
  destruct (String.eqb_spec type "handbook") as [->|_]; [cbn in H; tauto|].
  reflexivity.
Qed.

(** [strings.Split] never returns an empty slice. *)
Lemma Split_nonempty s sep : strings.Split s sep <> [].
Proof.
  destruct s as [|c s]; cbn; [discriminate|].
  destruct (Ascii.eqb c sep); [discriminate|].
  destruct (strings.Split s sep); discriminate.
Qed.

(** [strings.Split] returns one element more than there are separators. *)
Lemma Split_length s sep :
  length (strings.Split s sep) = S (strings.Count s sep).
Proof.
  induction s as [|c s IH]; cbn; [reflexivity|].
  destruct (Ascii.eqb c sep); cbn.
  - by rewrite IH.
  - destruct (strings.Split s sep) eqn:E; cbn in *; [discriminate | exact IH].
Qed.

(** Joining the parts with the separator gives the string back. *)
Lemma Join_Split s sep :
  strings.Join (strings.Split s sep) (String sep "") = s.
Proof.
  induction s as [|c s IH]; cbn; [reflexivity|].
  destruct (Ascii.eqb_spec c sep) as [->|_].
  - pose proof (Split_nonempty s sep).
    destruct (strings.Split s sep) as [|x xs]; [done|].
    cbn in *. by rewrite IH.
  - destruct (strings.Split s sep) as [|x [|y ys]] eqn:E; cbn in *.
    + by destruct (Split_nonempty s sep).
    + by subst.
    + by subst.
Qed.

(** No part holds the separator. *)
Lemma Split_parts s sep x :
  In x (strings.Split s sep) -> strings.Count x sep = 0%nat.
Proof.
  revert x. induction s as [|c s IH]; cbn; intros x.
  - by intros [<-|[]].
  - destruct (Ascii.eqb c sep) eqn:E.
    + intros [<-|H]; [reflexivity | by apply IH].
    + pose proof (Split_nonempty s sep).
      destruct (strings.Split s sep) as [|y ys]; [done|].
      intros [<-|H']; cbn.
      * rewrite E. apply IH. by left.
      * apply IH. by right.
Qed.


Lemma Header_Get_absent (h : http.Header) key :
  h !! http.CanonicalMIMEHeaderKey key = None -> http.Header_Get h key = "".
Proof. unfold http.Header_Get. by intros ->. Qed.


Lemma Sprintf_postMessage a b :
  fmt.Sprintf postMessageFormat [a; b]
  = "Marked [this post](" +:+ a +:+ ") for documentation [here](" +:+ b
    +:+ ")." +:+ nl +:+ nl
    +:+ "_Generated by the [Doc Up](https://github.com/jwilander/mattermost-plugin-docup) plugin._".
Proof. reflexivity. Qed.

Lemma append_assoc (a b c : string) : (a +:+ b) +:+ c = a +:+ b +:+ c.
Proof.
  induction a as [|x a IH]; [reflexivity|].
  change (String x ((a +:+ b) +:+ c) = String x (a +:+ b +:+ c)).
  by rewrite IH.
Qed.

Lemma Contains_here sub after : Contains (sub +:+ after) sub.
Proof. by exists "", after. Qed.

Lemma Contains_append before s sub :
  Contains s sub -> Contains (before +:+ s) sub.
Proof.
  intros (b & a & ->). exists (before +:+ b), a. by rewrite append_assoc.
Qed.

Lemma surjective_pairing_with {A B} (x : A * B) (b : B) :
  x.2 = b -> x = (x.1, b).
Proof. destruct x. cbn. by intros ->. Qed.

(** *** The path of the permalink *)

Lemma append_cons (c : ascii) (s : string) : String c "" +:+ s = String c s.
Proof. reflexivity. Qed.

Lemma Split_app a b sep :
  strings.Split (a +:+ String sep b) sep
  = (strings.Split a sep ++ strings.Split b sep)%list.
Proof.
  induction a as [|c a IH].
  - change ("" +:+ String sep b) with (String sep b). simpl.
    by rewrite Ascii.eqb_refl.
  - change (String c a +:+ String sep b) with (String c (a +:+ String sep b)).
    simpl. rewrite IH. destruct (Ascii.eqb c sep); [reflexivity|].
    pose proof (Split_nonempty a sep).
    by destruct (strings.Split a sep).
Qed.

Lemma Split_whole s sep :
  strings.Count s sep = 0%nat -> strings.Split s sep = [s].
Proof.
  induction s as [|c s IH]; simpl; [done|].
  destruct (Ascii.eqb c sep); [done|]. intros H. by rewrite IH.
Qed.

Lemma cleanStep_kept rooted kept s :
  s <> "." -> s <> ".." ->
  path.cleanStep rooted kept s
  = if negb (String.eqb s "") then s :: kept else kept.
Proof.
  intros H1 H2. unfold path.cleanStep.
  destruct (String.eqb_spec s ""); [done|].
  destruct (String.eqb_spec s "."); [done|].
  by destruct (String.eqb_spec s "..").
Qed.

Lemma fold_cleanStep rooted l kept :
  Forall (fun s => s <> "." /\ s <> "..") l ->
  fold_left (path.cleanStep rooted) l kept
  = (rev (List.filter (fun s => negb (String.eqb s "")) l) ++ kept)%list.
Proof.
  intros H. revert kept. induction H as [|s l [H1 H2] _ IH]; intros kept.
  - reflexivity.
  - simpl. rewrite IH, (cleanStep_kept _ _ _ H1 H2).
    destruct (negb (String.eqb s "")); simpl; [|done].
    by rewrite <- app_assoc.
Qed.

(** [path.Clean] on a path without [.] and [..] elements only drops the
    empty elements. *)
Lemma Clean_no_dots c p :
  Forall (fun s => s <> "." /\ s <> "..") (strings.Split (String c p) "/") ->
  elements (String c p) <> [] ->
  path.Clean (String c p)
  = (if Ascii.eqb c "/" then "/" else "")
    +:+ strings.Join (elements (String c p)) "/".
Proof.
  intros H Hne. unfold path.Clean.
  rewrite (fold_cleanStep _ _ _ H), app_nil_r, rev_involutive.
  fold (elements (String c p)).
  destruct (Ascii.eqb c "/"); [done|].
  by destruct (elements (String c p)).
Qed.

Lemma filter_no_dots (l : list string) :
  Forall (fun s => s <> "." /\ s <> "..")
    (List.filter (fun s => negb (String.eqb s "")) l) ->
  Forall (fun s => s <> "." /\ s <> "..") l.
Proof.
  induction l as [|s l IH]; simpl; [done|].
  destruct (String.eqb_spec s "") as [->|_]; simpl; intros H.
  - constructor; [done | by apply IH].
  - inversion H; subst. constructor; [done | by apply IH].
Qed.

Lemma HasPrefix_slash c P :
  strings.HasPrefix (String c P) "/" = Ascii.eqb c "/".
Proof.
  change (strings.HasPrefix (String c P) "/")
    with (match ascii_dec "/" c with
          | left _ => String.prefix "" P
          | right _ => false
          end).
  destruct (ascii_dec "/" c) as [E|E].
  - subst c. by destruct P.
  - symmetry. apply Ascii.eqb_neq. congruence.
Qed.

(** What line 138 computes, for a site path [P] without [.] and [..]
    elements and a message id that is a plain path element: the elements
    of [P], then [_redirect], [pl] and the id, rooted when [P] is. *)
Lemma permalink_path P id :
  Forall (fun s => s <> "." /\ s <> "..") (elements P) ->
  plain id ->
  path.Join [P; "_redirect"; "pl"; id]
  = (if strings.HasPrefix P "/" then "/" else "")
    +:+ strings.Join (elements P ++ ["_redirect"; "pl"; id]) "/".
Proof.
  intros HP (Hid1 & Hid2 & Hid3 & Hid4).
  assert (strings.Split ("_redirect" +:+ "/" +:+ "pl" +:+ "/" +:+ id) "/"
          = ["_redirect"; "pl"; id]) as Htail.
  { change ("_redirect" +:+ "/" +:+ "pl" +:+ "/" +:+ id)
      with ("_redirect" +:+ String "/" ("pl" +:+ String "/" id)).
    rewrite !Split_app, (Split_whole id) by done. reflexivity. }
  assert (List.filter (fun s => negb (String.eqb s "")) ["_redirect"; "pl"; id]
          = ["_redirect"; "pl"; id]) as Hf.
  { simpl. by destruct (String.eqb_spec id ""). }
  assert (Forall (fun s => s <> "." /\ s <> "..") ["_redirect"; "pl"; id])
    as Hnd by (repeat constructor; done).
  destruct P as [|c P].
  - change (path.Join [""; "_redirect"; "pl"; id])
      with (path.Clean ("_redirect" +:+ "/" +:+ "pl" +:+ "/" +:+ id)).
    change ("_redirect" +:+ "/" +:+ "pl" +:+ "/" +:+ id)
      with (String "_" ("redirect" +:+ "/" +:+ "pl" +:+ "/" +:+ id)) at 1.
    rewrite Clean_no_dots.
    + change (String "_" ("redirect" +:+ "/" +:+ "pl" +:+ "/" +:+ id))
        with ("_redirect" +:+ "/" +:+ "pl" +:+ "/" +:+ id).
      unfold elements. by rewrite Htail, Hf.
    + change (String "_" ("redirect" +:+ "/" +:+ "pl" +:+ "/" +:+ id))
        with ("_redirect" +:+ "/" +:+ "pl" +:+ "/" +:+ id).
      by rewrite Htail.
    + change (String "_" ("redirect" +:+ "/" +:+ "pl" +:+ "/" +:+ id))
        with ("_redirect" +:+ "/" +:+ "pl" +:+ "/" +:+ id).
      unfold elements. by rewrite Htail, Hf.
  - change (path.Join [String c P; "_redirect"; "pl"; id])
      with (path.Clean
              (String c (P +:+ String "/"
                           ("_redirect" +:+ "/" +:+ "pl" +:+ "/" +:+ id)))).
    assert (strings.Split
              (String c (P +:+ String "/"
                           ("_redirect" +:+ "/" +:+ "pl" +:+ "/" +:+ id))) "/"
            = (strings.Split (String c P) "/" ++ ["_redirect"; "pl"; id])%list)
      as Hs.
    { change (String c (P +:+ String "/"
                          ("_redirect" +:+ "/" +:+ "pl" +:+ "/" +:+ id)))
        with (String c P +:+ String "/"
                ("_redirect" +:+ "/" +:+ "pl" +:+ "/" +:+ id)).
      by rewrite Split_app, Htail. }
    assert (elements
              (String c (P +:+ String "/"
                           ("_redirect" +:+ "/" +:+ "pl" +:+ "/" +:+ id)))
            = (elements (String c P) ++ ["_redirect"; "pl"; id])%list) as He.
    { unfold elements. by rewrite Hs, List.filter_app, Hf. }
    rewrite Clean_no_dots.
    + by rewrite He, HasPrefix_slash.
    + rewrite Hs. apply Forall_app. split; [|done].
      by apply filter_no_dots.
    + rewrite He. by destruct (elements (String c P)).
Qed.

(** ** Running the handler *)

#[local] Arguments fmt.Sprintf : simpl never.
#[local] Arguments path.Join : simpl never.
#[local] Arguments strings.Split : simpl never.
#[local] Arguments String.append : simpl never.
#[local] Arguments neturl.String_ : simpl never.
#[local] Arguments neturl.Parse : simpl never.
#[local] Arguments json.Decode : simpl never.

Ltac unfold_handler :=
  unfold p_getConfiguration, API_LogError, API_GetUser, API_GetConfig,
    API_GetPost, API_CreatePost, github_Issues_Create, WriteHeader,
    http_Error, onResponse, record, return_, skip, deref, index,
    mbind, mret, Handler_bind, Handler_ret.

Ltac exits :=
  unfold Composed, Fetched, Resolved, Decoded; eauto 12.

Lemma handleCreate_exits lib p r :
  Exit lib p r (serve (handleCreate lib p r)).1 (serve (handleCreate lib p r)).2.
Proof.
  unfold serve, handleCreate, url_Parse_. fold (userIDOf r).
  unfold_handler.
  destruct (String.eqb_spec (userIDOf r) "") as [Hu|Hu]; cbn.
  { by apply ExitUnauthorized. }
  destruct (json_Decode lib (http.Body r)) as [ptr [err|]] eqn:Hd; cbn.
  { by eapply ExitDecodeFailed. }
  destruct ptr as [req|]; cbn.
  2: { by apply ExitNilRequest. }
  fold (repositoryFor (getConfiguration p) (Type_ req)).
  destruct (String.eqb_spec (repositoryFor (getConfiguration p) (Type_ req)) "")
    as [Hr|Hr]; cbn.
  { eapply ExitBadRequest; exits. }
  destruct (strings.Split (repositoryFor (getConfiguration p) (Type_ req)) "/")
    as [|owner [|repo [|x l]]] eqn:Hs; cbn;
    try (eapply ExitBadRepository; [exits | exits | rewrite Hs; cbn; lia]).
  destruct (plugin.GetUser (API p) (userIDOf r)) as [user [appErr|]] eqn:Hgu; cbn.
  { eapply ExitUserFailed; exits. }
  destruct (plugin.GetPost (API p) (PostID req)) as [docPost [appErr|]] eqn:Hgp; cbn.
  { eapply ExitPostFailed; exits. }
  destruct docPost as [docPost|]; cbn.
  2: { eapply ExitNilPost; exits. }
  destruct (plugin.GetConfig (API p)) as [serverConfig|] eqn:Hgc; cbn.
  2: { eapply ExitNilConfig; exits. }
  destruct (model.SiteURL (model.ServiceSettings_ serverConfig))
    as [siteURL|] eqn:Hsu; cbn.
  2: { eapply ExitNilSiteURL; exits. }
  destruct (url_Parse lib siteURL) as [u|e] eqn:Hp; cbn.
  2: { eapply ExitParseFailed; exits. }
  destruct user as [user|]; cbn.
  2: { eapply ExitNilUser; exits. }
  fold (labelsOf (getConfiguration p)) (rootIDOf docPost) (permalinkOf u docPost).
  fold (issueRequestOf lib (getConfiguration p) req user siteURL
          (permalinkOf u docPost)).
  destruct (Issues_Create p owner repo _) as [issue [err|]] eqn:Hic; cbn.
  { eapply ExitIssueFailed; exits. }
  fold (confirmationOf lib (userIDOf r) docPost (permalinkOf u docPost) issue).
  destruct (plugin.CreatePost (API p) _) as [created [appErr|]] eqn:Hcp; cbn.
  { eapply ExitReplyFailed; exits. }
  eapply ExitDone; exits.
Qed.

Ltac facts :=
  unfold Composed, Fetched, Resolved, Decoded in *;
  repeat match goal with x := _ |- _ => subst x end;
  unfold issueRequestOf, confirmationOf, labelsOf, rootIDOf, permalinkOf in *;
  repeat match goal with
         | H : _ /\ _ |- _ => destruct H
         | H : exists _, _ |- _ => destruct H
         | H : ?a <> "" |- _ => apply String.eqb_neq in H
         | H : length _ <> 2%nat |- _ => apply Nat.eqb_neq in H
         end.

Ltac follow :=
  repeat (first
    [ match goal with
      | H : ?a = _ |- context [?a] => rewrite H
      end
    | match goal with
      | req : CreateAPIRequest, p : Plugin |- _ =>
          progress fold (repositoryFor (getConfiguration p) (Type_ req))
      end ]; cbn).

Lemma exit_serve lib p r o st :
  Exit lib p r o st -> serve (handleCreate lib p r) = (o, st).
Proof.
  intros H.
  unfold serve, handleCreate, url_Parse_. fold (userIDOf r).
  unfold_handler.
  destruct H; facts; follow; reflexivity.
Qed.

Lemma serve_exit lib p r o st :
  serve (handleCreate lib p r) = (o, st) -> Exit lib p r o st.
Proof.
  intros H. pose proof (handleCreate_exits lib p r) as E.
  rewrite H in E. exact E.
Qed.

(** The handler always ends: it returns or panics, whatever the request
    and the collaborators. *)
Lemma serve_total lib p r :
  exists o st, serve (handleCreate lib p r) = (o, st).
Proof. destruct (serve (handleCreate lib p r)) as [o st]. eauto. Qed.


(** ** Tactics for the case analysis *)

Ltac parts :=
  unfold Composed, Fetched, Resolved, Decoded, userIDOf, lookups in *;
  repeat match goal with
         | H : _ /\ _ |- _ => destruct H
         | H : exists _, _ |- _ => destruct H
         end.

Ltac same :=
  repeat (progress
            (repeat match goal with
                    | H1 : ?a = _, H2 : ?a = _ |- _ => rewrite H1 in H2
                    end;
             simplify_eq)).

(** After a case analysis on [Exit]: the cases the facts at hand exclude
    are closed, the others are left with the facts merged. *)
Ltac exits_left :=
  parts; same;
  try match goal with
      | H : strings.Split ?s ?c = _, H' : context [strings.Split ?s ?c] |- _ =>
          rewrite H in H'; cbn in H'
      end;
  try congruence; try lia.

Example scenario_runs :
  serve (handleCreate reference Scenario.p Scenario.r)
  = (Completed,
     {| w := answered http.StatusOK;
        calls :=
          [ReadConfiguration; CallGetUser "U1"; CallGetConfig; CallGetPost "M1";
           CallIssuesCreate "org" "repo" Scenario.issueRequest;
           CallCreatePost Scenario.reply] |}).
Proof. vm_compute. reflexivity. Qed.


(** ** Properties of the handler *)

(** A repository string that splits in two is not empty. *)
Lemma Split_two_nonempty s owner repo :
  strings.Split s "/" = [owner; repo] -> s <> "".
Proof. by intros H ->. Qed.

(** The conditions under which every step up to the issue request
    succeeds. *)
Lemma all_steps_succeed
    (lib : Library) (p : Plugin) (r : http.Request) (req : CreateAPIRequest)
    (ownerAndRepo owner repo : string) (user : model.User)
    (docPost : model.Post) (serverConfig : model.Config) (siteURL : string)
    (u : url.URL) :
  userIDOf r <> "" ->
  json_Decode lib (http.Body r) = (Some req, None) ->
  Configured (getConfiguration p) (Type_ req) ownerAndRepo ->
  strings.Split ownerAndRepo "/" = [owner; repo] ->
  plugin.GetUser (API p) (userIDOf r) = (Some user, None) ->
  plugin.GetPost (API p) (PostID req) = (Some docPost, None) ->
  plugin.GetConfig (API p) = Some serverConfig ->
  model.SiteURL (model.ServiceSettings_ serverConfig) = Some siteURL ->
  url_Parse lib siteURL = inl u ->
  Composed lib p r req owner repo user docPost siteURL u.
Proof.
  intros Hu Hd Hc Hs Hgu Hgp Hgc Hsu Hp.
  pose proof (Split_two_nonempty _ _ _ Hs).
  apply Configured_repositoryFor in Hc. subst ownerAndRepo.
  repeat split; eauto.
Qed.

(** Once the issue request is composed, the handler asks for exactly that
    issue; when GitHub returns no error it asks for exactly the
    confirmation post; and when the server returns no error either it
    answers 200. *)
Lemma after_composition
    (lib : Library) (p : Plugin) (r : http.Request) (req : CreateAPIRequest)
    (owner repo : string) (user : model.User) (docPost : model.Post)
    (siteURL : string) (u : url.URL) :
  Composed lib p r req owner repo user docPost siteURL u ->
  exists o st,
    serve (handleCreate lib p r) = (o, st)
    /\ issuesCreated (calls st)
       = [(owner, repo,
           issueRequestOf lib (getConfiguration p) req user siteURL
             (permalinkOf u docPost))]
    /\ (forall issue,
          Issues_Create p owner repo
            (issueRequestOf lib (getConfiguration p) req user siteURL
               (permalinkOf u docPost))
          = (issue, None) ->
          postsCreated (calls st)
          = [confirmationOf lib (userIDOf r) docPost (permalinkOf u docPost)
               issue])
    /\ ((Issues_Create p owner repo
           (issueRequestOf lib (getConfiguration p) req user siteURL
              (permalinkOf u docPost))).2 = None ->
        (forall post, (plugin.CreatePost (API p) post).2 = None) ->
        o = Completed /\ http.status (w st) = Some http.StatusOK).
Proof.
  intros HC.
  destruct (Issues_Create p owner repo
              (issueRequestOf lib (getConfiguration p) req user siteURL
                 (permalinkOf u docPost))) as [issue [err|]] eqn:Hic.
  - eexists _, _. split.
    + apply exit_serve. by eapply ExitIssueFailed.
    + cbn. split_and!; [reflexivity | intros; simplify_eq | intros; simplify_eq].
  - destruct (plugin.CreatePost (API p)
                (confirmationOf lib (userIDOf r) docPost
                   (permalinkOf u docPost) issue))
      as [created [appErr|]] eqn:Hcp.
    + eexists _, _. split.
      * apply exit_serve. by eapply ExitReplyFailed.
      * cbn. split_and!; [reflexivity | by intros ? [= <-] |].
        intros _ Hall. specialize (Hall
          (confirmationOf lib (userIDOf r) docPost (permalinkOf u docPost)
             issue)).
        rewrite Hcp in Hall. discriminate.
    + eexists _, _. split.
      * apply exit_serve. by eapply ExitDone.
      * cbn. split_and!; [reflexivity | by intros ? [= <-] | done].
Qed.

(** C1. The end-to-end example: the request of user [U1] with the
    example body, the developer repository [org/repo], the message [M1]
    without parent, the site at [https://chat.example.com], and
    collaborators that answer without error.  Exactly one issue is asked
    for, in [org/repo], titled [Request for Documentation: T]; then
    exactly one post, in the channel of [M1] and with root [M1], whose
    message holds the permalink and the URL of the issue; the answer is
    200. *)
Theorem C1_end_to_end
    (p : Plugin) (r : http.Request) (user : model.User) (docPost : model.Post)
    (serverConfig : model.Config) (issue : option github.Issue) :
  http.Header_Get (http.ReqHeader r) "Mattermost-User-ID" = "U1" ->
  http.Body r = Scenario.body ->
  DeveloperRepository (getConfiguration p) = "org/repo" ->
  plugin.GetUser (API p) "U1" = (Some user, None) ->
  plugin.GetPost (API p) "M1" = (Some docPost, None) ->
  model.Id docPost = "M1" ->
  model.RootId docPost = "" ->
  plugin.GetConfig (API p) = Some serverConfig ->
  model.SiteURL (model.ServiceSettings_ serverConfig)
  = Some "https://chat.example.com" ->
  (forall issueRequest, Issues_Create p "org" "repo" issueRequest = (issue, None)) ->
  (forall post, (plugin.CreatePost (API p) post).2 = None) ->
  exists st issueRequest post before,
    serve (handleCreate reference p r) = (Completed, st)
    /\ http.status (w st) = Some http.StatusOK
    /\ calls st
       = (before ++ [CallIssuesCreate "org" "repo" issueRequest;
                     CallCreatePost post])%list
    /\ issuesCreated (calls st) = [("org", "repo", issueRequest)]
    /\ github.Title issueRequest = Some "Request for Documentation: T"
    /\ postsCreated (calls st) = [post]
    /\ model.ChannelId post = model.ChannelId docPost
    /\ model.RootId post = "M1"
    /\ Contains (model.PostMessage post)
         "https://chat.example.com/_redirect/pl/M1"
    /\ Contains (model.PostMessage post) (github.GetHTMLURL issue).
Proof.
  intros Hu Hb Hdev Hgu Hgp Hid Hroot Hgc Hsu Hic Hcp.
  assert (json_Decode reference (http.Body r)
          = (Some Scenario.createRequest, None)) as Hd
    by (rewrite Hb; vm_compute; reflexivity).
  assert (url_Parse reference "https://chat.example.com"
          = inl Scenario.site) as Hp
    by (vm_compute; reflexivity).
  assert (Composed reference p r Scenario.createRequest "org" "repo" user
            docPost "https://chat.example.com" Scenario.site) as HC.
  { apply (all_steps_succeed reference p r Scenario.createRequest "org/repo"
             "org" "repo" user docPost serverConfig); unfold userIDOf;
      rewrite ?Hu; try done.
    rewrite <- Hdev. exact (ConfiguredDeveloper (getConfiguration p)). }
  eexists _,
    (issueRequestOf reference (getConfiguration p) Scenario.createRequest user
       "https://chat.example.com" (permalinkOf Scenario.site docPost)),
    (confirmationOf reference (userIDOf r) docPost
       (permalinkOf Scenario.site docPost) issue),
    (lookups r Scenario.createRequest).
  split.
  { apply exit_serve. eapply ExitDone; [exact HC | apply Hic |].
    apply surjective_pairing_with, Hcp. }
  cbn. unfold rootIDOf, permalinkOf. rewrite Hid, Hroot. cbn.
  split_and!; try reflexivity.
  - rewrite Sprintf_postMessage.
    replace (neturl.String_ _) with "https://chat.example.com/_redirect/pl/M1"
      by (vm_compute; reflexivity).
    apply Contains_append, Contains_here.
  - rewrite Sprintf_postMessage.
    do 3 apply Contains_append. apply Contains_here.
Qed.

Lemma C1_witness :
  exists st issueRequest post before,
    serve (handleCreate reference Scenario.p Scenario.r) = (Completed, st)
    /\ http.status (w st) = Some http.StatusOK
    /\ calls st
       = (before ++ [CallIssuesCreate "org" "repo" issueRequest;
                     CallCreatePost post])%list
    /\ issuesCreated (calls st) = [("org", "repo", issueRequest)]
    /\ github.Title issueRequest = Some "Request for Documentation: T"
    /\ postsCreated (calls st) = [post]
    /\ model.ChannelId post = model.ChannelId (Scenario.message "")
    /\ model.RootId post = "M1"
    /\ Contains (model.PostMessage post)
         "https://chat.example.com/_redirect/pl/M1"
    /\ Contains (model.PostMessage post)
         (github.GetHTMLURL (Some Scenario.issue)).
Proof.
  apply (C1_end_to_end Scenario.p Scenario.r Scenario.user
           (Scenario.message "")
           {| model.ServiceSettings_ :=
                {| model.SiteURL := Some Scenario.siteURL |} |}
           (Some Scenario.issue)).
  - vm_compute. reflexivity.
  - reflexivity.
  - reflexivity.
  - reflexivity.
  - reflexivity.
  - reflexivity.
  - reflexivity.
  - reflexivity.
  - reflexivity.
  - intros issueRequest. reflexivity.
  - intros post. reflexivity.
Defined.

(** C2. Whatever the request and the collaborators: an issue is asked for
    only after the user and the message were fetched without error; the
    confirmation post is asked for only after GitHub created the issue
    without error; a logged failure is the last thing the handler does,
    with the answer 500; the answers 401 and 400 come before any call to
    the server or to GitHub; and no call is made twice. *)
Theorem C2_failures_abort_the_request
    (lib : Library) (p : Plugin) (r : http.Request) (o : Outcome) (st : State) :
  serve (handleCreate lib p r) = (o, st) ->
  (forall owner repo issue,
     In (CallIssuesCreate owner repo issue) (calls st) ->
     exists req user docPost,
       json_Decode lib (http.Body r) = (Some req, None)
       /\ plugin.GetUser (API p)
            (http.Header_Get (http.ReqHeader r) "Mattermost-User-ID")
          = (Some user, None)
       /\ plugin.GetPost (API p) (PostID req) = (Some docPost, None))
  /\ (forall post,
        In (CallCreatePost post) (calls st) ->
        exists owner repo issueRequest issue,
          In (CallIssuesCreate owner repo issueRequest) (calls st)
          /\ Issues_Create p owner repo issueRequest = (issue, None))
  /\ (forall before msg after,
        calls st = (before ++ LogError msg :: after)%list ->
        after = []
        /\ o = Completed
        /\ http.status (w st) = Some http.StatusInternalServerError)
  /\ (http.status (w st) = Some http.StatusUnauthorized -> calls st = [])
  /\ (http.status (w st) = Some http.StatusBadRequest ->
      calls st = [ReadConfiguration])
  /\ NoDup (map kindOf (calls st)).
Proof.
  intros H. apply serve_exit in H.
  split; [|split; [|split; [|split; [|split]]]].
  - intros owner repo issue Hin.
    destruct H; parts; cbn in Hin; intuition; simplify_eq; eauto 10.
  - intros post Hin.
    destruct H; parts; cbn in Hin; intuition; simplify_eq;
      eexists _, _, _, _; (split; [|eassumption]); cbn; tauto.
  - intros before msg after E.
    destruct H; unfold lookups in *; cbn in *;
      repeat (destruct before as [|? before]; cbn in *; simplify_eq);
      done.
  - destruct H; cbn; intros; simplify_eq; done.
  - destruct H; cbn; intros; simplify_eq; done.
  - destruct H; cbn; apply (bool_decide_unpack _); by vm_compute.
Qed.

Lemma C2_witness :
  (forall owner repo issue,
     In (CallIssuesCreate owner repo issue)
       (calls (Scenario.final Scenario.p Scenario.r)) ->
     exists req user docPost,
       json_Decode reference (http.Body Scenario.r) = (Some req, None)
       /\ plugin.GetUser (API Scenario.p)
            (http.Header_Get (http.ReqHeader Scenario.r) "Mattermost-User-ID")
          = (Some user, None)
       /\ plugin.GetPost (API Scenario.p) (PostID req) = (Some docPost, None))
  /\ (forall post,
        In (CallCreatePost post)
          (calls (Scenario.final Scenario.p Scenario.r)) ->
        exists owner repo issueRequest issue,
          In (CallIssuesCreate owner repo issueRequest)
            (calls (Scenario.final Scenario.p Scenario.r))
          /\ Issues_Create Scenario.p owner repo issueRequest = (issue, None))
  /\ (forall before msg after,
        calls (Scenario.final Scenario.p Scenario.r)
        = (before ++ LogError msg :: after)%list ->
        after = []
        /\ Completed = Completed
        /\ http.status (w (Scenario.final Scenario.p Scenario.r))
           = Some http.StatusInternalServerError)
  /\ (http.status (w (Scenario.final Scenario.p Scenario.r))
      = Some http.StatusUnauthorized ->
      calls (Scenario.final Scenario.p Scenario.r) = [])
  /\ (http.status (w (Scenario.final Scenario.p Scenario.r))
      = Some http.StatusBadRequest ->
      calls (Scenario.final Scenario.p Scenario.r) = [ReadConfiguration])
  /\ NoDup (map kindOf (calls (Scenario.final Scenario.p Scenario.r))).
Proof.
  apply (C2_failures_abort_the_request reference Scenario.p Scenario.r
           Completed (Scenario.final Scenario.p Scenario.r)).
  vm_compute. reflexivity.
Defined.

(** C3. A request without the [Mattermost-User-ID] header (the header
    reads as the empty string) is answered 401 and nothing else happens:
    the configuration is not read, no issue and no post is created. *)
Theorem C3_missing_identity_is_unauthorized
    (lib : Library) (p : Plugin) (r : http.Request) :
  http.Header_Get (http.ReqHeader r) "Mattermost-User-ID" = "" ->
  exists st,
    serve (handleCreate lib p r) = (Completed, st)
    /\ http.status (w st) = Some http.StatusUnauthorized
    /\ calls st = []
    /\ ~ In ReadConfiguration (calls st)
    /\ issuesCreated (calls st) = []
    /\ postsCreated (calls st) = [].
Proof.
  intros H. eexists. split.
  - apply exit_serve. by apply ExitUnauthorized.
  - cbn. intuition.
Qed.

Lemma C3_witness :
  exists st,
    serve (handleCreate reference Scenario.p (Scenario.request [] Scenario.body))
    = (Completed, st)
    /\ http.status (w st) = Some http.StatusUnauthorized
    /\ calls st = []
    /\ ~ In ReadConfiguration (calls st)
    /\ issuesCreated (calls st) = []
    /\ postsCreated (calls st) = [].
Proof.
  apply (C3_missing_identity_is_unauthorized reference Scenario.p
           (Scenario.request [] Scenario.body)).
  vm_compute. reflexivity.
Defined.

(** A header that was never set reads as the empty string. *)
Example anonymous_request_unauthorized (lib : Library) (p : Plugin) body :
  http.status
    (w (serve (handleCreate lib p
                 {| http.URL_Path := "/create"; http.ReqHeader := ∅;
                    http.Body := body |})).2)
  = Some http.StatusUnauthorized.
Proof.
  rewrite (exit_serve lib p _ Completed {| w := unauthorized; calls := [] |}).
  - reflexivity.
  - apply ExitUnauthorized. by apply Header_Get_absent.
Qed.

(** C4. An authenticated request that decodes, whose type is none of
    [admin], [developer] and [handbook] or whose type has the empty
    string configured, is answered 400 and neither an issue nor a post is
    created. *)
Theorem C4_unresolved_type_is_bad_request
    (lib : Library) (p : Plugin) (r : http.Request) (req : CreateAPIRequest) :
  http.Header_Get (http.ReqHeader r) "Mattermost-User-ID" <> "" ->
  json_Decode lib (http.Body r) = (Some req, None) ->
  ~ In (Type_ req) ["admin"; "developer"; "handbook"]
  \/ Configured (getConfiguration p) (Type_ req) "" ->
  exists st,
    serve (handleCreate lib p r) = (Completed, st)
    /\ http.status (w st) = Some http.StatusBadRequest
    /\ calls st = [ReadConfiguration]
    /\ issuesCreated (calls st) = []
    /\ postsCreated (calls st) = [].
Proof.
  intros Hu Hd Ht. eexists. split.
  - apply exit_serve. eapply ExitBadRequest; [by split|].
    destruct Ht as [Ht|Ht].
    + by apply repositoryFor_unknown.
    + by apply Configured_repositoryFor.
  - by cbn.
Qed.

Lemma C4_witness :
  exists st,
    serve (handleCreate reference (Scenario.plugin "" "" "" None) Scenario.r)
    = (Completed, st)
    /\ http.status (w st) = Some http.StatusBadRequest
    /\ calls st = [ReadConfiguration]
    /\ issuesCreated (calls st) = []
    /\ postsCreated (calls st) = [].
Proof.
  apply (C4_unresolved_type_is_bad_request reference
           (Scenario.plugin "" "" "" None) Scenario.r Scenario.createRequest).
  - vm_compute. discriminate.
  - vm_compute. reflexivity.
  - right. exact (ConfiguredDeveloper (Scenario.config "" "")).
Defined.



(** The repository string [/repo] is taken as the owner [""] and the
    name [repo]: the issue is created there. *)
Example empty_owner_accepted :
  issuesCreated
    (calls (Scenario.final
              (Scenario.plugin "/repo" "" "" (Some Scenario.siteURL))
              Scenario.r))
  = [("", "repo",
      {| github.Title := Some "Request for Documentation: T";
         github.Body :=
           Some (fmt.Sprintf issueBodyFormat
                   ["alice"; Scenario.siteURL; "B"; Scenario.permalink]);
         github.Labels := Some [];
         github.Assignee := None; github.State := None;
         github.Milestone := None; github.Assignees := None |})].
Proof. vm_compute. reflexivity. Qed.

(** Every issue the handler asks for carries the labels of the
    configuration. *)
Lemma labels_of_every_issue
    (lib : Library) (p : Plugin) (r : http.Request) (o : Outcome) (st : State)
    (owner repo : string) (issue : github.IssueRequest) :
  serve (handleCreate lib p r) = (o, st) ->
  In (CallIssuesCreate owner repo issue) (calls st) ->
  github.Labels issue = Some (labelsOf (getConfiguration p)).
Proof.
  intros H Hin. apply serve_exit in H.
  destruct H; parts; cbn in Hin; intuition; by simplify_eq.
Qed.

(** C6. For a request that reaches label parsing and whose lookups
    succeed, the handler asks for exactly one issue, and that issue
    carries the labels of the configuration: [a], [b], [c] for the string
    [a,b,c], and the empty list for the empty string.  The empty string
    is no error: when GitHub and the server accept the issue and the
    post, the answer is 200 whatever the labels. *)
Theorem C6_labels_from_configuration
    (lib : Library) (p : Plugin) (r : http.Request) (req : CreateAPIRequest)
    (ownerAndRepo owner repo : string) (user : model.User)
    (docPost : model.Post) (serverConfig : model.Config) (siteURL : string)
    (u : url.URL) :
  http.Header_Get (http.ReqHeader r) "Mattermost-User-ID" <> "" ->
  json_Decode lib (http.Body r) = (Some req, None) ->
  Configured (getConfiguration p) (Type_ req) ownerAndRepo ->
  strings.Split ownerAndRepo "/" = [owner; repo] ->
  plugin.GetUser (API p)
    (http.Header_Get (http.ReqHeader r) "Mattermost-User-ID")
  = (Some user, None) ->
  plugin.GetPost (API p) (PostID req) = (Some docPost, None) ->
  plugin.GetConfig (API p) = Some serverConfig ->
  model.SiteURL (model.ServiceSettings_ serverConfig) = Some siteURL ->
  url_Parse lib siteURL = inl u ->
  exists o st issue,
    serve (handleCreate lib p r) = (o, st)
    /\ issuesCreated (calls st) = [(owner, repo, issue)]
    /\ (Labels (getConfiguration p) = "a,b,c" ->
        github.Labels issue = Some ["a"; "b"; "c"])
    /\ (Labels (getConfiguration p) = "" -> github.Labels issue = Some [])
    /\ (Labels (getConfiguration p) <> "" ->
        github.Labels issue
        = Some (strings.Split (Labels (getConfiguration p)) ","))
    /\ ((Issues_Create p owner repo issue).2 = None ->
        (forall post, (plugin.CreatePost (API p) post).2 = None) ->
        o = Completed /\ http.status (w st) = Some http.StatusOK).
Proof.
  intros Hu Hd Hc Hs Hgu Hgp Hgc Hsu Hp.
  pose proof (all_steps_succeed lib p r req ownerAndRepo owner repo user
                docPost serverConfig siteURL u Hu Hd Hc Hs Hgu Hgp Hgc
                Hsu Hp) as HC.
  destruct (after_composition lib p r req owner repo user docPost siteURL u HC)
    as (o & st & Hrun & Hissues & _ & Hok).
  exists o, st, (issueRequestOf lib (getConfiguration p) req user siteURL
                   (permalinkOf u docPost)).
  split_and!; try done; cbn; unfold labelsOf.
  - by intros ->.
  - by intros ->.
  - intros Hne. apply String.eqb_neq in Hne. by rewrite Hne.
Qed.

Lemma C6_witness :
  (exists o st issue,
     serve (handleCreate reference Scenario.p Scenario.r) = (o, st)
     /\ issuesCreated (calls st) = [("org", "repo", issue)]
     /\ (Labels (getConfiguration Scenario.p) = "a,b,c" ->
         github.Labels issue = Some ["a"; "b"; "c"])
     /\ (Labels (getConfiguration Scenario.p) = "" ->
         github.Labels issue = Some [])
     /\ (Labels (getConfiguration Scenario.p) <> "" ->
         github.Labels issue
         = Some (strings.Split (Labels (getConfiguration Scenario.p)) ","))
     /\ ((Issues_Create Scenario.p "org" "repo" issue).2 = None ->
         (forall post, (plugin.CreatePost (API Scenario.p) post).2 = None) ->
         o = Completed /\ http.status (w st) = Some http.StatusOK))
  /\ (exists o st issue,
        serve (handleCreate reference
                 (Scenario.plugin "org/repo" "" "" (Some Scenario.siteURL))
                 Scenario.r) = (o, st)
        /\ issuesCreated (calls st) = [("org", "repo", issue)]
        /\ (Labels (getConfiguration
                      (Scenario.plugin "org/repo" "" ""
                         (Some Scenario.siteURL))) = "a,b,c" ->
            github.Labels issue = Some ["a"; "b"; "c"])
        /\ (Labels (getConfiguration
                      (Scenario.plugin "org/repo" "" ""
                         (Some Scenario.siteURL))) = "" ->
            github.Labels issue = Some [])
        /\ (Labels (getConfiguration
                      (Scenario.plugin "org/repo" "" ""
                         (Some Scenario.siteURL))) <> "" ->
            github.Labels issue
            = Some (strings.Split
                      (Labels (getConfiguration
                                 (Scenario.plugin "org/repo" "" ""
                                    (Some Scenario.siteURL)))) ","))
        /\ ((Issues_Create
               (Scenario.plugin "org/repo" "" "" (Some Scenario.siteURL))
               "org" "repo" issue).2 = None ->
            (forall post,
               (plugin.CreatePost
                  (API (Scenario.plugin "org/repo" "" ""
                          (Some Scenario.siteURL))) post).2 = None) ->
            o = Completed /\ http.status (w st) = Some http.StatusOK)).
Proof.
  split.
  - apply (C6_labels_from_configuration reference Scenario.p Scenario.r
             Scenario.createRequest "org/repo" "org" "repo" Scenario.user
             (Scenario.message "")
             {| model.ServiceSettings_ :=
                  {| model.SiteURL := Some Scenario.siteURL |} |}
             Scenario.siteURL Scenario.site).
    + vm_compute. discriminate.
    + vm_compute. reflexivity.
    + exact (ConfiguredDeveloper (Scenario.config "org/repo" "a,b,c")).
    + reflexivity.
    + reflexivity.
    + reflexivity.
    + reflexivity.
    + reflexivity.
    + vm_compute. reflexivity.
  - apply (C6_labels_from_configuration reference
             (Scenario.plugin "org/repo" "" "" (Some Scenario.siteURL))
             Scenario.r
             Scenario.createRequest "org/repo" "org" "repo" Scenario.user
             (Scenario.message "")
             {| model.ServiceSettings_ :=
                  {| model.SiteURL := Some Scenario.siteURL |} |}
             Scenario.siteURL Scenario.site).
    + vm_compute. discriminate.
    + vm_compute. reflexivity.
    + exact (ConfiguredDeveloper (Scenario.config "org/repo" "")).
    + reflexivity.
    + reflexivity.
    + reflexivity.
    + reflexivity.
    + reflexivity.
    + vm_compute. reflexivity.
Defined.

(** With no labels configured the issue is asked for all the same, with
    the empty list of labels. *)
Example no_labels_is_no_error :
  let st := Scenario.final
              (Scenario.plugin "org/repo" "" "" (Some Scenario.siteURL))
              Scenario.r in
  http.status (w st) = Some http.StatusOK
  /\ map (fun i => github.Labels i.2) (issuesCreated (calls st)) = [Some []].
Proof. vm_compute. split; reflexivity. Qed.

(** Every confirmation post the handler asks for is in the thread of the
    source message. *)
Lemma thread_root_of_every_post
    (lib : Library) (p : Plugin) (r : http.Request) (o : Outcome) (st : State)
    (post : model.Post) :
  serve (handleCreate lib p r) = (o, st) ->
  In (CallCreatePost post) (calls st) ->
  exists req docPost,
    json_Decode lib (http.Body r) = (Some req, None)
    /\ plugin.GetPost (API p) (PostID req) = (Some docPost, None)
    /\ (model.RootId docPost = "" -> model.RootId post = model.Id docPost)
    /\ (forall P, model.RootId docPost = P -> P <> "" -> model.RootId post = P).
Proof.
  intros H Hin. apply serve_exit in H.
  destruct H; parts; cbn in Hin; intuition; simplify_eq;
    eexists _, _; (split; [eassumption|]); (split; [eassumption|]);
    cbn; unfold rootIDOf; split.
  all: try by intros ->.
  all: intros P <- HP; apply String.eqb_neq in HP; by rewrite HP.
Qed.

(** C7. For a request whose source message is fetched and whose other
    steps up to the creation of the issue succeed, the handler asks for
    exactly one confirmation post, in the channel of the source message
    and in its thread: the root of the post is the message itself when
    the message has no root, and the root [P] of the message when it has
    one. *)
Theorem C7_confirmation_thread_root
    (lib : Library) (p : Plugin) (r : http.Request) (req : CreateAPIRequest)
    (ownerAndRepo owner repo : string) (user : model.User)
    (docPost : model.Post) (serverConfig : model.Config) (siteURL : string)
    (u : url.URL) :
  http.Header_Get (http.ReqHeader r) "Mattermost-User-ID" <> "" ->
  json_Decode lib (http.Body r) = (Some req, None) ->
  Configured (getConfiguration p) (Type_ req) ownerAndRepo ->
  strings.Split ownerAndRepo "/" = [owner; repo] ->
  plugin.GetUser (API p)
    (http.Header_Get (http.ReqHeader r) "Mattermost-User-ID")
  = (Some user, None) ->
  plugin.GetPost (API p) (PostID req) = (Some docPost, None) ->
  plugin.GetConfig (API p) = Some serverConfig ->
  model.SiteURL (model.ServiceSettings_ serverConfig) = Some siteURL ->
  url_Parse lib siteURL = inl u ->
  (forall issueRequest, (Issues_Create p owner repo issueRequest).2 = None) ->
  exists o st post,
    serve (handleCreate lib p r) = (o, st)
    /\ postsCreated (calls st) = [post]
    /\ model.ChannelId post = model.ChannelId docPost
    /\ (model.RootId docPost = "" -> model.RootId post = model.Id docPost)
    /\ (forall P, model.RootId docPost = P -> P <> "" -> model.RootId post = P).
Proof.
  intros Hu Hd Hc Hs Hgu Hgp Hgc Hsu Hp Hic.
  pose proof (all_steps_succeed lib p r req ownerAndRepo owner repo user
                docPost serverConfig siteURL u Hu Hd Hc Hs Hgu Hgp Hgc
                Hsu Hp) as HC.
  destruct (after_composition lib p r req owner repo user docPost siteURL u HC)
    as (o & st & Hrun & _ & Hposts & _).
  eexists o, st, _. split; [exact Hrun|]. split.
  { apply Hposts. apply surjective_pairing_with, Hic. }
  cbn. unfold rootIDOf. split_and!.
  - reflexivity.
  - by intros ->.
  - intros P <- HP. apply String.eqb_neq in HP. by rewrite HP.
Qed.

Lemma C7_witness :
  (exists o st post,
     serve (handleCreate reference Scenario.p Scenario.r) = (o, st)
     /\ postsCreated (calls st) = [post]
     /\ model.ChannelId post = model.ChannelId (Scenario.message "")
     /\ (model.RootId (Scenario.message "") = "" ->
         model.RootId post = model.Id (Scenario.message ""))
     /\ (forall P,
           model.RootId (Scenario.message "") = P -> P <> "" ->
           model.RootId post = P))
  /\ (exists o st post,
        serve (handleCreate reference
                 (Scenario.plugin "org/repo" "a,b,c" "P0"
                    (Some Scenario.siteURL))
                 Scenario.r) = (o, st)
        /\ postsCreated (calls st) = [post]
        /\ model.ChannelId post = model.ChannelId (Scenario.message "P0")
        /\ (model.RootId (Scenario.message "P0") = "" ->
            model.RootId post = model.Id (Scenario.message "P0"))
        /\ (forall P,
              model.RootId (Scenario.message "P0") = P -> P <> "" ->
              model.RootId post = P)).
Proof.
  split.
  - apply (C7_confirmation_thread_root reference Scenario.p Scenario.r
             Scenario.createRequest "org/repo" "org" "repo" Scenario.user
             (Scenario.message "")
             {| model.ServiceSettings_ :=
                  {| model.SiteURL := Some Scenario.siteURL |} |}
             Scenario.siteURL Scenario.site).
    + vm_compute. discriminate.
    + vm_compute. reflexivity.
    + exact (ConfiguredDeveloper (Scenario.config "org/repo" "a,b,c")).
    + reflexivity.
    + reflexivity.
    + reflexivity.
    + reflexivity.
    + reflexivity.
    + vm_compute. reflexivity.
    + intros issueRequest. reflexivity.
  - apply (C7_confirmation_thread_root reference
             (Scenario.plugin "org/repo" "a,b,c" "P0" (Some Scenario.siteURL))
             Scenario.r
             Scenario.createRequest "org/repo" "org" "repo" Scenario.user
             (Scenario.message "P0")
             {| model.ServiceSettings_ :=
                  {| model.SiteURL := Some Scenario.siteURL |} |}
             Scenario.siteURL Scenario.site).
    + vm_compute. discriminate.
    + vm_compute. reflexivity.
    + exact (ConfiguredDeveloper (Scenario.config "org/repo" "a,b,c")).
    + reflexivity.
    + reflexivity.
    + reflexivity.
    + reflexivity.
    + reflexivity.
    + vm_compute. reflexivity.
    + intros issueRequest. reflexivity.
Defined.

(** A reply to a message inside the thread [P0] goes to that thread. *)
Example reply_in_thread :
  map model.RootId
    (postsCreated
       (calls (Scenario.final
                 (Scenario.plugin "org/repo" "" "P0" (Some Scenario.siteURL))
                 Scenario.r)))
  = ["P0"].
Proof. vm_compute. reflexivity. Qed.

(** C8. For an authenticated request: when the decoder reports an error,
    the error is logged and the answer is 500; when it reports none, the
    handler goes on to read the configuration; and when the request
    decodes and every later step succeeds, the answer is 200 with an empty
    body. *)
Theorem C8_decoding_and_success
    (lib : Library) (p : Plugin) (r : http.Request) :
  http.Header_Get (http.ReqHeader r) "Mattermost-User-ID" <> "" ->
  (forall ptr err,
     json_Decode lib (http.Body r) = (ptr, Some err) ->
     exists st,
       serve (handleCreate lib p r) = (Completed, st)
       /\ http.status (w st) = Some http.StatusInternalServerError
       /\ calls st = [LogError ("Unable to decode JSON err=" +:+ Error err)])
  /\ (forall ptr,
        json_Decode lib (http.Body r) = (ptr, None) ->
        exists o st rest,
          serve (handleCreate lib p r) = (o, st)
          /\ calls st = ReadConfiguration :: rest)
  /\ (forall req ownerAndRepo owner repo user docPost serverConfig siteURL u,
        json_Decode lib (http.Body r) = (Some req, None) ->
        Configured (getConfiguration p) (Type_ req) ownerAndRepo ->
        strings.Split ownerAndRepo "/" = [owner; repo] ->
        plugin.GetUser (API p)
          (http.Header_Get (http.ReqHeader r) "Mattermost-User-ID")
        = (Some user, None) ->
        plugin.GetPost (API p) (PostID req) = (Some docPost, None) ->
        plugin.GetConfig (API p) = Some serverConfig ->
        model.SiteURL (model.ServiceSettings_ serverConfig) = Some siteURL ->
        url_Parse lib siteURL = inl u ->
        (forall issue, (Issues_Create p owner repo issue).2 = None) ->
        (forall post, (plugin.CreatePost (API p) post).2 = None) ->
        exists st,
          serve (handleCreate lib p r) = (Completed, st)
          /\ http.status (w st) = Some http.StatusOK
          /\ http.body (w st) = "").
Proof.
  intros Hu. split; [|split].
  - intros ptr err Hd. eexists. split.
    + apply exit_serve. by eapply ExitDecodeFailed.
    + by cbn.
  - intros ptr Hd.
    destruct (serve (handleCreate lib p r)) as [o st] eqn:H.
    exists o, st. apply serve_exit in H.
    destruct H; exits_left; cbn; eexists; split; reflexivity.
  - intros req ownerAndRepo owner repo user docPost serverConfig siteURL u
      Hd Hc Hs Hgu Hgp Hgc Hsu Hp Hic Hcp.
    pose proof (all_steps_succeed lib p r req ownerAndRepo owner repo user
                  docPost serverConfig siteURL u Hu Hd Hc Hs Hgu Hgp Hgc
                  Hsu Hp) as HC.
    eexists. split.
    + apply exit_serve. eapply ExitDone; [exact HC | |].
      * apply surjective_pairing_with. apply Hic.
      * apply surjective_pairing_with. apply Hcp.
    + by cbn.
Qed.

Lemma C8_witness :
  (forall ptr err,
     json_Decode reference (http.Body Scenario.r) = (ptr, Some err) ->
     exists st,
       serve (handleCreate reference Scenario.p Scenario.r) = (Completed, st)
       /\ http.status (w st) = Some http.StatusInternalServerError
       /\ calls st = [LogError ("Unable to decode JSON err=" +:+ Error err)])
  /\ (forall ptr,
        json_Decode reference (http.Body Scenario.r) = (ptr, None) ->
        exists o st rest,
          serve (handleCreate reference Scenario.p Scenario.r) = (o, st)
          /\ calls st = ReadConfiguration :: rest)
  /\ (forall req ownerAndRepo owner repo user docPost serverConfig siteURL u,
        json_Decode reference (http.Body Scenario.r) = (Some req, None) ->
        Configured (getConfiguration Scenario.p) (Type_ req) ownerAndRepo ->
        strings.Split ownerAndRepo "/" = [owner; repo] ->
        plugin.GetUser (API Scenario.p)
          (http.Header_Get (http.ReqHeader Scenario.r) "Mattermost-User-ID")
        = (Some user, None) ->
        plugin.GetPost (API Scenario.p) (PostID req) = (Some docPost, None) ->
        plugin.GetConfig (API Scenario.p) = Some serverConfig ->
        model.SiteURL (model.ServiceSettings_ serverConfig) = Some siteURL ->
        url_Parse reference siteURL = inl u ->
        (forall issue, (Issues_Create Scenario.p owner repo issue).2 = None) ->
        (forall post, (plugin.CreatePost (API Scenario.p) post).2 = None) ->
        exists st,
          serve (handleCreate reference Scenario.p Scenario.r) = (Completed, st)
          /\ http.status (w st) = Some http.StatusOK
          /\ http.body (w st) = "").
Proof.
  apply (C8_decoding_and_success reference Scenario.p Scenario.r).
  vm_compute. discriminate.
Defined.

(** A body that is not JSON is logged and answered 500. *)
Example malformed_body_is_internal_error :
  serve (handleCreate reference Scenario.p
           (Scenario.request ["U1"] "{type: developer}"))
  = (Completed,
     {| w := answered http.StatusInternalServerError;
        calls :=
          [LogError
             "Unable to decode JSON err=invalid character 't' looking for beginning of object key string"] |}).
Proof. vm_compute. reflexivity. Qed.

(** The body [null] decodes without error into a nil request, and the
    handler panics on it after reading the configuration. *)
Example null_body_panics :
  serve (handleCreate reference Scenario.p (Scenario.request ["U1"] "null"))
  = (Panicked, {| w := http.newResponse; calls := [ReadConfiguration] |}).
Proof. vm_compute. reflexivity. Qed.



(** C10. For a request that reaches the permalink step (authenticated,
    decoded, repository resolved, user and message fetched without
    error): a site URL that is absent or that does not parse makes the
    handler panic on a nil pointer, with no status written and nothing
    logged; and whatever the site URL, the handler answers only after it
    asked for the issue to be created, so no answer comes from the
    permalink step. *)
Theorem C10_permalink_step_never_answers
    (lib : Library) (p : Plugin) (r : http.Request) (req : CreateAPIRequest)
    (ownerAndRepo owner repo : string) (user : option model.User)
    (docPost : model.Post) :
  http.Header_Get (http.ReqHeader r) "Mattermost-User-ID" <> "" ->
  json_Decode lib (http.Body r) = (Some req, None) ->
  Configured (getConfiguration p) (Type_ req) ownerAndRepo ->
  strings.Split ownerAndRepo "/" = [owner; repo] ->
  plugin.GetUser (API p)
    (http.Header_Get (http.ReqHeader r) "Mattermost-User-ID")
  = (user, None) ->
  plugin.GetPost (API p) (PostID req) = (Some docPost, None) ->
  (forall serverConfig,
     plugin.GetConfig (API p) = Some serverConfig ->
     model.SiteURL (model.ServiceSettings_ serverConfig) = None
     \/ (exists siteURL e,
           model.SiteURL (model.ServiceSettings_ serverConfig) = Some siteURL
           /\ url_Parse lib siteURL = inr e) ->
     exists st,
       serve (handleCreate lib p r) = (Panicked, st)
       /\ http.status (w st) = None
       /\ http.body (w st) = ""
       /\ calls st
          = [ReadConfiguration;
             CallGetUser
               (http.Header_Get (http.ReqHeader r) "Mattermost-User-ID");
             CallGetConfig; CallGetPost (PostID req)]
       /\ forall msg, ~ In (LogError msg) (calls st))
  /\ (forall o st,
        serve (handleCreate lib p r) = (o, st) ->
        http.status (w st) <> None ->
        o = Completed
        /\ exists owner' repo' issue,
             In (CallIssuesCreate owner' repo' issue) (calls st)).
Proof.
  intros Hu Hd Hc Hs Hgu Hgp.
  pose proof (Split_two_nonempty _ _ _ Hs) as Hne.
  apply Configured_repositoryFor in Hc. subst ownerAndRepo.
  assert (Fetched lib p r req owner repo user docPost) as HF
    by (repeat split; eauto).
  split.
  - intros serverConfig Hgc [Hsu|(siteURL & e & Hsu & Hp)]; eexists; split.
    + apply exit_serve. by eapply ExitNilSiteURL.
    + cbn. intuition; discriminate.
    + apply exit_serve. by eapply ExitParseFailed.
    + cbn. intuition; discriminate.
  - intros o st H Hst. clear HF. apply serve_exit in H.
    destruct H; exits_left; cbn in *; try done;
      (split; [done|]); eexists _, _, _; do 4 right; by left.
Qed.

Lemma C10_witness :
  (forall serverConfig,
     plugin.GetConfig (API (Scenario.plugin "org/repo" "" "" None))
     = Some serverConfig ->
     model.SiteURL (model.ServiceSettings_ serverConfig) = None
     \/ (exists siteURL e,
           model.SiteURL (model.ServiceSettings_ serverConfig) = Some siteURL
           /\ url_Parse reference siteURL = inr e) ->
     exists st,
       serve (handleCreate reference (Scenario.plugin "org/repo" "" "" None)
                Scenario.r)
       = (Panicked, st)
       /\ http.status (w st) = None
       /\ http.body (w st) = ""
       /\ calls st
          = [ReadConfiguration;
             CallGetUser
               (http.Header_Get (http.ReqHeader Scenario.r)
                  "Mattermost-User-ID");
             CallGetConfig; CallGetPost (PostID Scenario.createRequest)]
       /\ forall msg, ~ In (LogError msg) (calls st))
  /\ (forall o st,
        serve (handleCreate reference (Scenario.plugin "org/repo" "" "" None)
                 Scenario.r)
        = (o, st) ->
        http.status (w st) <> None ->
        o = Completed
        /\ exists owner' repo' issue,
             In (CallIssuesCreate owner' repo' issue) (calls st)).
Proof.
  apply (C10_permalink_step_never_answers reference
           (Scenario.plugin "org/repo" "" "" None) Scenario.r
           Scenario.createRequest "org/repo" "org" "repo"
           (Some Scenario.user) (Scenario.message "")).
  - vm_compute. discriminate.
  - vm_compute. reflexivity.
  - exact (ConfiguredDeveloper (Scenario.config "org/repo" "")).
  - reflexivity.
  - reflexivity.
  - reflexivity.
Defined.

(** A site URL that does not parse: the handler panics, and neither logs
    nor answers. *)
Example unparsable_site_panics :
  serve (handleCreate reference
           (Scenario.plugin "org/repo" "" "" (Some ":no-scheme")) Scenario.r)
  = (Panicked,
     {| w := http.newResponse;
        calls := [ReadConfiguration; CallGetUser "U1"; CallGetConfig;
                  CallGetPost "M1"] |}).
Proof. vm_compute. reflexivity. Qed.

(** ** Further properties of [plugin.go] *)

(** [ServeHTTP] on the route [/create] is [handleCreate]. *)
Lemma ServeHTTP_create lib p r :
  http.URL_Path r = "/create" -> ServeHTTP lib p r = handleCreate lib p r.
Proof. intros H. unfold ServeHTTP. by rewrite H. Qed.

(** [ServeHTTP] on any other path. *)
Lemma ServeHTTP_other lib p r :
  http.URL_Path r <> "/create" ->
  serve (ServeHTTP lib p r)
  = (Completed,
     {| w := http.Error http.newResponse "404 page not found"
               http.StatusNotFound;
        calls := [] |}).
Proof.
  intros H. unfold ServeHTTP. apply String.eqb_neq in H. rewrite H.
  reflexivity.
Qed.

(** X1. A request for any path other than [/create] is answered 404 with
    the text of [http.NotFound], whoever sends it: the plugin reads no
    configuration, calls neither the server nor GitHub and logs
    nothing. *)
Theorem X1_other_paths_are_not_found
    (lib : Library) (p : Plugin) (r : http.Request) :
  http.URL_Path r <> "/create" ->
  exists st,
    serve (ServeHTTP lib p r) = (Completed, st)
    /\ http.status (w st) = Some http.StatusNotFound
    /\ http.body (w st) = "404 page not found" +:+ nl
    /\ http.header (w st) !! "Content-Type"
       = Some ["text/plain; charset=utf-8"]
    /\ calls st = [].
Proof.
  intros H. eexists. split; [by apply ServeHTTP_other|].
  cbn. split_and!; reflexivity.
Qed.

Lemma X1_witness :
  exists st,
    serve (ServeHTTP reference Scenario.p
             {| http.URL_Path := "/create/"; http.ReqHeader := ∅;
                http.Body := Scenario.body |})
    = (Completed, st)
    /\ http.status (w st) = Some http.StatusNotFound
    /\ http.body (w st) = "404 page not found" +:+ nl
    /\ http.header (w st) !! "Content-Type"
       = Some ["text/plain; charset=utf-8"]
    /\ calls st = [].
Proof.
  apply (X1_other_paths_are_not_found reference Scenario.p
           {| http.URL_Path := "/create/"; http.ReqHeader := ∅;
              http.Body := Scenario.body |}).
  discriminate.
Defined.

(** X2. The answers of the plugin: an exchange that completes has one of
    the statuses 200, 400, 401, 404 and 500, and one that panics has
    none; a body and headers are written only with 401 and 404. *)
Theorem X2_statuses_of_the_plugin
    (lib : Library) (p : Plugin) (r : http.Request) (o : Outcome) (st : State) :
  serve (ServeHTTP lib p r) = (o, st) ->
  (o = Completed ->
   In (http.status (w st))
     [Some http.StatusOK; Some http.StatusBadRequest;
      Some http.StatusUnauthorized; Some http.StatusNotFound;
      Some http.StatusInternalServerError])
  /\ (o = Panicked -> http.status (w st) = None)
  /\ (http.status (w st) <> Some http.StatusUnauthorized ->
      http.status (w st) <> Some http.StatusNotFound ->
      http.body (w st) = "" /\ http.header (w st) = ∅)
  /\ (http.status (w st) = Some http.StatusNotFound <->
      http.URL_Path r <> "/create").
Proof.
  intros H.
  destruct (decide (http.URL_Path r = "/create")) as [Hp|Hp].
  - rewrite (ServeHTTP_create _ _ _ Hp) in H. apply serve_exit in H.
    destruct H; cbn; split_and!; try split; intros; simplify_eq;
      try done; cbn; tauto.
  - rewrite (ServeHTTP_other _ _ _ Hp) in H. simplify_eq. cbn.
    split_and!; try split; intros; try done; cbn; tauto.
Qed.

Lemma X2_witness :
  (Completed = Completed ->
   In (http.status (w (Scenario.final Scenario.p Scenario.r)))
     [Some http.StatusOK; Some http.StatusBadRequest;
      Some http.StatusUnauthorized; Some http.StatusNotFound;
      Some http.StatusInternalServerError])
  /\ (Completed = Panicked ->
      http.status (w (Scenario.final Scenario.p Scenario.r)) = None)
  /\ (http.status (w (Scenario.final Scenario.p Scenario.r))
      <> Some http.StatusUnauthorized ->
      http.status (w (Scenario.final Scenario.p Scenario.r))
      <> Some http.StatusNotFound ->
      http.body (w (Scenario.final Scenario.p Scenario.r)) = ""
      /\ http.header (w (Scenario.final Scenario.p Scenario.r)) = ∅)
  /\ (http.status (w (Scenario.final Scenario.p Scenario.r))
      = Some http.StatusNotFound <->
      http.URL_Path Scenario.r <> "/create").
Proof.
  apply (X2_statuses_of_the_plugin reference Scenario.p Scenario.r Completed
           (Scenario.final Scenario.p Scenario.r)).
  vm_compute. reflexivity.
Defined.

(** X3. The handler answers 500 exactly when it logged an error, and it
    logs one error at most; each logged text is one of six fixed
    prefixes followed by its cause: the error the decoder, the lookup,
    GitHub or the server returned, or the repository string that does not
    split in two. *)
Theorem X3_internal_errors_are_logged
    (lib : Library) (p : Plugin) (r : http.Request) (o : Outcome) (st : State) :
  serve (handleCreate lib p r) = (o, st) ->
  (http.status (w st) = Some http.StatusInternalServerError <->
   exists msg, In (LogError msg) (calls st))
  /\ (forall msg msg',
        In (LogError msg) (calls st) -> In (LogError msg') (calls st) ->
        msg = msg')
  /\ (forall msg,
        In (LogError msg) (calls st) ->
        exists prefix cause, In prefix logPrefixes /\ msg = prefix +:+ cause)
  /\ (forall msg, In (LogError msg) (calls st) -> Logged lib p r st msg).
Proof.
  intros H. apply serve_exit in H. split_and!.
  - destruct H; cbn; (split; [intros ?; simplify_eq; eauto 10|]);
      intros [msg Hin]; intuition; simplify_eq.
  - intros msg msg' H1 H2.
    destruct H; cbn in *; intuition; by simplify_eq.
  - intros msg Hin.
    destruct H; cbn in Hin; intuition; simplify_eq;
      eexists _, _; (split; [|reflexivity]); cbn; tauto.
  - intros msg Hin.
    destruct H; parts; cbn in Hin; intuition; simplify_eq.
    + by eapply LoggedDecode.
    + eapply LoggedRepository; [eassumption | | eassumption].
      by apply repositoryFor_Configured.
    + by eapply LoggedUser.
    + by eapply LoggedPost.
    + eapply LoggedIssue; [|eassumption]. cbn. tauto.
    + eapply LoggedReply; [|eassumption]. cbn. tauto.
Qed.

Lemma X3_witness :
  (http.status (w (Scenario.final Scenario.refused Scenario.r))
   = Some http.StatusInternalServerError <->
   exists msg,
     In (LogError msg) (calls (Scenario.final Scenario.refused Scenario.r)))
  /\ (forall msg msg',
        In (LogError msg) (calls (Scenario.final Scenario.refused Scenario.r)) ->
        In (LogError msg') (calls (Scenario.final Scenario.refused Scenario.r)) ->
        msg = msg')
  /\ (forall msg,
        In (LogError msg) (calls (Scenario.final Scenario.refused Scenario.r)) ->
        exists prefix cause, In prefix logPrefixes /\ msg = prefix +:+ cause)
  /\ (forall msg,
        In (LogError msg) (calls (Scenario.final Scenario.refused Scenario.r)) ->
        Logged reference Scenario.refused Scenario.r
          (Scenario.final Scenario.refused Scenario.r) msg).
Proof.
  apply (X3_internal_errors_are_logged reference Scenario.refused Scenario.r
           Completed (Scenario.final Scenario.refused Scenario.r)).
  vm_compute. reflexivity.
Defined.

(** What is logged when GitHub refuses the issue, when the server
    refuses the post, and when the user is unknown. *)
Example causes_logged :
  omap (fun c => match c with LogError msg => Some msg | _ => None end)
    (calls (Scenario.final Scenario.refused Scenario.r))
  = ["Error creating GitHub issue err=401 Bad credentials"]
  /\ omap (fun c => match c with LogError msg => Some msg | _ => None end)
       (calls (Scenario.final Scenario.readOnly Scenario.r))
     = ["Unable to create post err=SqlStore.Get: not found, "]
  /\ omap (fun c => match c with LogError msg => Some msg | _ => None end)
       (calls (Scenario.final Scenario.p
                 (Scenario.request ["U7"] Scenario.body)))
     = ["Unable to get user err=SqlStore.Get: not found, "].
Proof. vm_compute. split_and!; reflexivity. Qed.

(** X4. A panic of the handler comes from a nil pointer alone: a nil
    request, message or user returned without an error, a nil server
    configuration or site URL, or the nil URL of a failed [url.Parse]
    whose error the handler discards.  It happens before anything was
    written, logged or created. *)
Theorem X4_panics_come_before_any_effect
    (lib : Library) (p : Plugin) (r : http.Request) (st : State) :
  serve (handleCreate lib p r) = (Panicked, st) ->
  w st = http.newResponse
  /\ issuesCreated (calls st) = []
  /\ postsCreated (calls st) = []
  /\ (forall msg, ~ In (LogError msg) (calls st))
  /\ (json_Decode lib (http.Body r) = (None, None)
      \/ exists req,
           json_Decode lib (http.Body r) = (Some req, None)
           /\ (plugin.GetPost (API p) (PostID req) = (None, None)
               \/ plugin.GetConfig (API p) = None
               \/ (exists serverConfig,
                     plugin.GetConfig (API p) = Some serverConfig
                     /\ (model.SiteURL (model.ServiceSettings_ serverConfig)
                         = None
                         \/ exists siteURL e,
                              model.SiteURL
                                (model.ServiceSettings_ serverConfig)
                              = Some siteURL
                              /\ url_Parse lib siteURL = inr e))
               \/ plugin.GetUser (API p)
                    (http.Header_Get (http.ReqHeader r) "Mattermost-User-ID")
                  = (None, None))).
Proof.
  intros H. apply serve_exit in H.
  inversion H; subst; parts; cbn; split_and!; try done;
    try (intros msg Hin; cbn in Hin; intuition; discriminate);
    first
      [ left; eassumption
      | right; eexists; split; [eassumption|];
        first
          [ left; eassumption
          | right; left; eassumption
          | right; right; left; eexists; split; [eassumption|];
            first [ left; eassumption
                  | right; eexists _, _; split; eassumption ]
          | right; right; right; eassumption ] ].
Qed.

Lemma X4_witness :
  w (Scenario.final Scenario.p (Scenario.request ["U1"] "null"))
  = http.newResponse
  /\ issuesCreated
       (calls (Scenario.final Scenario.p (Scenario.request ["U1"] "null")))
     = []
  /\ postsCreated
       (calls (Scenario.final Scenario.p (Scenario.request ["U1"] "null")))
     = []
  /\ (forall msg,
        ~ In (LogError msg)
            (calls (Scenario.final Scenario.p
                      (Scenario.request ["U1"] "null"))))
  /\ (json_Decode reference (http.Body (Scenario.request ["U1"] "null"))
      = (None, None)
      \/ exists req,
           json_Decode reference (http.Body (Scenario.request ["U1"] "null"))
           = (Some req, None)
           /\ (plugin.GetPost (API Scenario.p) (PostID req) = (None, None)
               \/ plugin.GetConfig (API Scenario.p) = None
               \/ (exists serverConfig,
                     plugin.GetConfig (API Scenario.p) = Some serverConfig
                     /\ (model.SiteURL (model.ServiceSettings_ serverConfig)
                         = None
                         \/ exists siteURL e,
                              model.SiteURL
                                (model.ServiceSettings_ serverConfig)
                              = Some siteURL
                              /\ url_Parse reference siteURL = inr e))
               \/ plugin.GetUser (API Scenario.p)
                    (http.Header_Get
                       (http.ReqHeader (Scenario.request ["U1"] "null"))
                       "Mattermost-User-ID")
                  = (None, None))).
Proof.
  apply (X4_panics_come_before_any_effect reference Scenario.p
           (Scenario.request ["U1"] "null")
           (Scenario.final Scenario.p (Scenario.request ["U1"] "null"))).
  vm_compute. reflexivity.
Defined.

(** X5. Whenever the handler asks for an issue: the owner and the name
    are the two sides of the one slash of the repository string
    configured for the type of the request; the title is the title of the
    request after the fixed prefix; and of the fields of the issue only
    the title, the body and the labels are set. *)
Theorem X5_issue_request_fields
    (lib : Library) (p : Plugin) (r : http.Request) (o : Outcome) (st : State)
    (owner repo : string) (issue : github.IssueRequest) :
  serve (handleCreate lib p r) = (o, st) ->
  In (CallIssuesCreate owner repo issue) (calls st) ->
  exists req,
    json_Decode lib (http.Body r) = (Some req, None)
    /\ Configured (getConfiguration p) (Type_ req) (owner +:+ "/" +:+ repo)
    /\ strings.Count owner "/" = 0%nat
    /\ strings.Count repo "/" = 0%nat
    /\ github.Title issue
       = Some ("Request for Documentation: " +:+ Title req)
    /\ is_Some (github.Body issue)
    /\ is_Some (github.Labels issue)
    /\ github.Assignee issue = None
    /\ github.State issue = None
    /\ github.Milestone issue = None
    /\ github.Assignees issue = None.
Proof.
  intros H Hin. apply serve_exit in H.
  assert (exists req,
            json_Decode lib (http.Body r) = (Some req, None)
            /\ repositoryFor (getConfiguration p) (Type_ req) <> ""
            /\ strings.Split (repositoryFor (getConfiguration p) (Type_ req))
                 "/" = [owner; repo]
            /\ issue
               = {| github.Title :=
                      Some ("Request for Documentation: " +:+ Title req);
                    github.Body := github.Body issue;
                    github.Labels := github.Labels issue;
                    github.Assignee := None; github.State := None;
                    github.Milestone := None; github.Assignees := None |}
            /\ is_Some (github.Body issue) /\ is_Some (github.Labels issue))
    as (req & Hd & Hne & Hs & Hi & Hb & Hl).
  { destruct H; parts; cbn in Hin; intuition; simplify_eq;
      eexists; split_and!; eauto. }
  exists req.
  pose proof (Join_Split (repositoryFor (getConfiguration p) (Type_ req)) "/")
    as HJ.
  pose proof (Split_parts (repositoryFor (getConfiguration p) (Type_ req)) "/")
    as HP.
  rewrite Hs in HJ, HP. cbn in HJ.
  split_and!; try done.
  - rewrite HJ. by apply repositoryFor_Configured.
  - apply HP. by left.
  - apply HP. right. by left.
  - by rewrite Hi.
  - by rewrite Hi.
  - by rewrite Hi.
  - by rewrite Hi.
  - by rewrite Hi.
Qed.

Lemma X5_witness :
  exists req,
    json_Decode reference (http.Body Scenario.r) = (Some req, None)
    /\ Configured (getConfiguration Scenario.p) (Type_ req)
         ("org" +:+ "/" +:+ "repo")
    /\ strings.Count "org" "/" = 0%nat
    /\ strings.Count "repo" "/" = 0%nat
    /\ github.Title Scenario.issueRequest
       = Some ("Request for Documentation: " +:+ Title req)
    /\ is_Some (github.Body Scenario.issueRequest)
    /\ is_Some (github.Labels Scenario.issueRequest)
    /\ github.Assignee Scenario.issueRequest = None
    /\ github.State Scenario.issueRequest = None
    /\ github.Milestone Scenario.issueRequest = None
    /\ github.Assignees Scenario.issueRequest = None.
Proof.
  apply (X5_issue_request_fields reference Scenario.p Scenario.r Completed
           (Scenario.final Scenario.p Scenario.r) "org" "repo"
           Scenario.issueRequest).
  - vm_compute. reflexivity.
  - vm_compute. do 4 right. left. reflexivity.
Defined.

(** X6. Whenever the handler asks for the confirmation post: the post is
    written in the name of the requesting user, in the channel of the
    source message, with no id and no parent of its own, and its message
    is the fixed text around the permalink and the URL of the issue that
    GitHub returned. *)
Theorem X6_confirmation_post_fields
    (lib : Library) (p : Plugin) (r : http.Request) (o : Outcome) (st : State)
    (post : model.Post) :
  serve (handleCreate lib p r) = (o, st) ->
  In (CallCreatePost post) (calls st) ->
  exists req docPost serverConfig siteURL u owner repo issueRequest issue,
    json_Decode lib (http.Body r) = (Some req, None)
    /\ plugin.GetPost (API p) (PostID req) = (Some docPost, None)
    /\ plugin.GetConfig (API p) = Some serverConfig
    /\ model.SiteURL (model.ServiceSettings_ serverConfig) = Some siteURL
    /\ url_Parse lib siteURL = inl u
    /\ In (CallIssuesCreate owner repo issueRequest) (calls st)
    /\ Issues_Create p owner repo issueRequest = (issue, None)
    /\ model.UserId post
       = http.Header_Get (http.ReqHeader r) "Mattermost-User-ID"
    /\ model.ChannelId post = model.ChannelId docPost
    /\ model.Id post = ""
    /\ model.ParentId post = ""
    /\ model.PostMessage post
       = "Marked [this post]("
         +:+ URL_String lib
               (url.setPathField u
                  (path.Join [url.Path u; "_redirect"; "pl"; model.Id docPost]))
         +:+ ") for documentation [here](" +:+ github.GetHTMLURL issue
         +:+ ")." +:+ nl +:+ nl
         +:+ "_Generated by the [Doc Up](https://github.com/jwilander/mattermost-plugin-docup) plugin._".
Proof.
  intros H Hin. apply serve_exit in H.
  destruct H; parts; cbn in Hin; intuition; simplify_eq;
    eexists _, _, _, _, _, _, _, _, _;
    split_and!; try eassumption; try reflexivity;
    try (cbn; tauto); cbn; by rewrite Sprintf_postMessage.
Qed.

Lemma X6_witness :
  exists req docPost serverConfig siteURL u owner repo issueRequest issue,
    json_Decode reference (http.Body Scenario.r) = (Some req, None)
    /\ plugin.GetPost (API Scenario.p) (PostID req) = (Some docPost, None)
    /\ plugin.GetConfig (API Scenario.p) = Some serverConfig
    /\ model.SiteURL (model.ServiceSettings_ serverConfig) = Some siteURL
    /\ url_Parse reference siteURL = inl u
    /\ In (CallIssuesCreate owner repo issueRequest)
         (calls (Scenario.final Scenario.p Scenario.r))
    /\ Issues_Create Scenario.p owner repo issueRequest = (issue, None)
    /\ model.UserId Scenario.reply
       = http.Header_Get (http.ReqHeader Scenario.r) "Mattermost-User-ID"
    /\ model.ChannelId Scenario.reply = model.ChannelId docPost
    /\ model.Id Scenario.reply = ""
    /\ model.ParentId Scenario.reply = ""
    /\ model.PostMessage Scenario.reply
       = "Marked [this post]("
         +:+ URL_String reference
               (url.setPathField u
                  (path.Join [url.Path u; "_redirect"; "pl"; model.Id docPost]))
         +:+ ") for documentation [here](" +:+ github.GetHTMLURL issue
         +:+ ")." +:+ nl +:+ nl
         +:+ "_Generated by the [Doc Up](https://github.com/jwilander/mattermost-plugin-docup) plugin._".
Proof.
  apply (X6_confirmation_post_fields reference Scenario.p Scenario.r
           Completed (Scenario.final Scenario.p Scenario.r) Scenario.reply).
  - vm_compute. reflexivity.
  - vm_compute. do 5 right. left. reflexivity.
Defined.

(** X7. The labels of an issue are the configured string cut at its
    commas and nothing else: joined by commas they give the string back
    (nothing is trimmed and empty labels between commas are kept), there
    is one more label than there are commas, and no label holds a comma;
    only the empty string gives no label at all. *)
Theorem X7_labels_are_the_configured_string
    (lib : Library) (p : Plugin) (r : http.Request) (o : Outcome) (st : State)
    (owner repo : string) (issue : github.IssueRequest) :
  serve (handleCreate lib p r) = (o, st) ->
  In (CallIssuesCreate owner repo issue) (calls st) ->
  exists labels,
    github.Labels issue = Some labels
    /\ strings.Join labels "," = Labels (getConfiguration p)
    /\ (labels = [] <-> Labels (getConfiguration p) = "")
    /\ (Labels (getConfiguration p) <> "" ->
        length labels = S (strings.Count (Labels (getConfiguration p)) ","))
    /\ forall label, In label labels -> strings.Count label "," = 0%nat.
Proof.
  intros H Hin.
  assert (github.Labels issue = Some (labelsOf (getConfiguration p))) as Hl.
  { apply serve_exit in H.
    destruct H; parts; cbn in Hin; intuition; by simplify_eq. }
  exists (labelsOf (getConfiguration p)). split; [exact Hl|].
  unfold labelsOf.
  destruct (String.eqb_spec (Labels (getConfiguration p)) "") as [E|E]; cbn.
  - rewrite E. split_and!; done.
  - split_and!.
    + apply (Join_Split _ ","%char).
    + split; [|done]. intros E'. by destruct (Split_nonempty _ _ E').
    + intros _. apply Split_length.
    + apply Split_parts.
Qed.

Lemma X7_witness :
  exists labels,
    github.Labels Scenario.issueRequest = Some labels
    /\ strings.Join labels "," = Labels (getConfiguration Scenario.p)
    /\ (labels = [] <-> Labels (getConfiguration Scenario.p) = "")
    /\ (Labels (getConfiguration Scenario.p) <> "" ->
        length labels
        = S (strings.Count (Labels (getConfiguration Scenario.p)) ","))
    /\ forall label, In label labels -> strings.Count label "," = 0%nat.
Proof.
  apply (X7_labels_are_the_configured_string reference Scenario.p Scenario.r
           Completed (Scenario.final Scenario.p Scenario.r) "org" "repo"
           Scenario.issueRequest).
  - vm_compute. reflexivity.
  - vm_compute. do 4 right. left. reflexivity.
Defined.

(** Nothing is trimmed: a blank after a comma stays in the label. *)
Example labels_keep_blanks :
  map (fun i => github.Labels i.2)
    (issuesCreated
       (calls (Scenario.final
                 (Scenario.plugin "org/repo" "docs, help,,x" ""
                    (Some Scenario.siteURL))
                 Scenario.r)))
  = [Some ["docs"; " help"; ""; "x"]].
Proof. vm_compute. reflexivity. Qed.

(** The identity header under its canonical key. *)
Lemma userID_first_value (h : http.Header) :
  http.Header_Get h "Mattermost-User-ID"
  = match h !! "Mattermost-User-Id" with
    | Some (v :: _) => v
    | _ => ""
    end.
Proof. reflexivity. Qed.

(** X8. The caller is the first value of the header stored under the
    canonical key [Mattermost-User-Id]: the handler answers 401 exactly
    when there is no such value or it is empty, and otherwise it is this
    value and no other that is looked up as the user. *)
Theorem X8_identity_is_the_first_header_value
    (lib : Library) (p : Plugin) (r : http.Request) (o : Outcome) (st : State) :
  serve (handleCreate lib p r) = (o, st) ->
  (http.status (w st) = Some http.StatusUnauthorized <->
   forall v vs,
     http.ReqHeader r !! "Mattermost-User-Id" = Some (v :: vs) -> v = "")
  /\ forall userID,
       In (CallGetUser userID) (calls st) ->
       userID <> ""
       /\ exists vs,
            http.ReqHeader r !! "Mattermost-User-Id" = Some (userID :: vs).
Proof.
  intros H. apply serve_exit in H.
  assert (userIDOf r = ""
          <-> forall v vs,
                http.ReqHeader r !! "Mattermost-User-Id" = Some (v :: vs) ->
                v = "") as Hempty.
  { unfold userIDOf. rewrite userID_first_value.
    destruct (http.ReqHeader r !! "Mattermost-User-Id") as [[|v vs]|];
      split; try done.
    - intros -> v' vs' [= <- _]. done.
    - intros E. by apply (E v vs). }
  assert (userIDOf r <> "" ->
          exists vs,
            http.ReqHeader r !! "Mattermost-User-Id"
            = Some (userIDOf r :: vs)) as Hvalue.
  { unfold userIDOf. rewrite userID_first_value.
    destruct (http.ReqHeader r !! "Mattermost-User-Id") as [[|v vs]|];
      try done. eauto. }
  split.
  - rewrite <- Hempty.
    destruct H; parts; fold (userIDOf r) in *; cbn; split; intros;
      simplify_eq; done.
  - intros userID Hin.
    destruct H; parts; fold (userIDOf r) in *; cbn in Hin; intuition;
      simplify_eq; auto.
Qed.

Lemma X8_witness :
  (http.status (w (Scenario.final Scenario.p Scenario.r))
   = Some http.StatusUnauthorized <->
   forall v vs,
     http.ReqHeader Scenario.r !! "Mattermost-User-Id" = Some (v :: vs) ->
     v = "")
  /\ forall userID,
       In (CallGetUser userID) (calls (Scenario.final Scenario.p Scenario.r)) ->
       userID <> ""
       /\ exists vs,
            http.ReqHeader Scenario.r !! "Mattermost-User-Id"
            = Some (userID :: vs).
Proof.
  apply (X8_identity_is_the_first_header_value reference Scenario.p
           Scenario.r Completed (Scenario.final Scenario.p Scenario.r)).
  vm_compute. reflexivity.
Defined.

(** A second value of the header is not looked at, and an empty first
    value is no identity. *)
Example second_value_ignored :
  calls (Scenario.final Scenario.p (Scenario.request ["U1"; "U9"] Scenario.body))
  = calls (Scenario.final Scenario.p Scenario.r)
  /\ http.status
       (w (Scenario.final Scenario.p (Scenario.request [""; "U1"] Scenario.body)))
     = Some http.StatusUnauthorized.
Proof. vm_compute. split; reflexivity. Qed.

(** X9. The handler answers 200 exactly when the server accepted the
    confirmation post; then exactly one issue and one post were asked
    for, both without error, and nothing was logged. *)
Theorem X9_success_means_issue_and_post
    (lib : Library) (p : Plugin) (r : http.Request) (o : Outcome) (st : State) :
  serve (handleCreate lib p r) = (o, st) ->
  (http.status (w st) = Some http.StatusOK <->
   exists post created,
     In (CallCreatePost post) (calls st)
     /\ plugin.CreatePost (API p) post = (created, None))
  /\ (http.status (w st) = Some http.StatusOK ->
      exists owner repo issueRequest issue post created,
        issuesCreated (calls st) = [(owner, repo, issueRequest)]
        /\ Issues_Create p owner repo issueRequest = (issue, None)
        /\ postsCreated (calls st) = [post]
        /\ plugin.CreatePost (API p) post = (created, None)
        /\ o = Completed
        /\ forall msg, ~ In (LogError msg) (calls st)).
Proof.
  intros H. apply serve_exit in H. split.
  - destruct H; cbn; split;
      try (intros ?; simplify_eq; fail);
      try (intros (post' & created' & Hin & Hc); cbn in Hin; intuition;
           simplify_eq; same; done).
    intros _. eexists _, _. split; [|eassumption]. cbn. tauto.
  - destruct H; cbn; intros ?; simplify_eq.
    eexists _, _, _, _, _, _. split_and!; try reflexivity; try eassumption.
    cbn. intros msg Hin. intuition; discriminate.
Qed.

Lemma X9_witness :
  (http.status (w (Scenario.final Scenario.p Scenario.r))
   = Some http.StatusOK <->
   exists post created,
     In (CallCreatePost post) (calls (Scenario.final Scenario.p Scenario.r))
     /\ plugin.CreatePost (API Scenario.p) post = (created, None))
  /\ (http.status (w (Scenario.final Scenario.p Scenario.r))
      = Some http.StatusOK ->
      exists owner repo issueRequest issue post created,
        issuesCreated (calls (Scenario.final Scenario.p Scenario.r))
        = [(owner, repo, issueRequest)]
        /\ Issues_Create Scenario.p owner repo issueRequest = (issue, None)
        /\ postsCreated (calls (Scenario.final Scenario.p Scenario.r)) = [post]
        /\ plugin.CreatePost (API Scenario.p) post = (created, None)
        /\ Completed = Completed
        /\ forall msg,
             ~ In (LogError msg) (calls (Scenario.final Scenario.p Scenario.r))).
Proof.
  apply (X9_success_means_issue_and_post reference Scenario.p Scenario.r
           Completed (Scenario.final Scenario.p Scenario.r)).
  vm_compute. reflexivity.
Defined.

(** X10. The permalink of the confirmation post, for a site URL whose
    path has no [.] and no [..] element and a message id that is a plain
    path element: its path is the elements of the site path followed by
    [_redirect], [pl] and the id, joined by single slashes, and rooted
    exactly when the site path is; the other parts of the site URL are
    kept. *)
Theorem X10_permalink_path
    (lib : Library) (p : Plugin) (r : http.Request) (o : Outcome) (st : State)
    (post : model.Post) :
  serve (handleCreate lib p r) = (o, st) ->
  In (CallCreatePost post) (calls st) ->
  exists req docPost serverConfig siteURL u issueURL,
    json_Decode lib (http.Body r) = (Some req, None)
    /\ plugin.GetPost (API p) (PostID req) = (Some docPost, None)
    /\ plugin.GetConfig (API p) = Some serverConfig
    /\ model.SiteURL (model.ServiceSettings_ serverConfig) = Some siteURL
    /\ url_Parse lib siteURL = inl u
    /\ (Forall (fun s => s <> "." /\ s <> "..") (elements (url.Path u)) ->
        plain (model.Id docPost) ->
        model.PostMessage post
        = "Marked [this post]("
          +:+ URL_String lib
                (url.setPathField u
                   ((if strings.HasPrefix (url.Path u) "/" then "/" else "")
                    +:+ strings.Join
                          (elements (url.Path u)
                           ++ ["_redirect"; "pl"; model.Id docPost]) "/"))
          +:+ ") for documentation [here](" +:+ issueURL
          +:+ ")." +:+ nl +:+ nl
          +:+ "_Generated by the [Doc Up](https://github.com/jwilander/mattermost-plugin-docup) plugin._").
Proof.
  intros H Hin. apply serve_exit in H.
  destruct H; parts; cbn in Hin; intuition; simplify_eq;
    eexists _, _, _, _, _, _;
    split_and!; try eassumption.
  all: intros HP Hid; cbn; unfold permalinkOf;
    rewrite Sprintf_postMessage, (permalink_path _ _ HP Hid); reflexivity.
Qed.

Lemma X10_witness :
  exists req docPost serverConfig siteURL u issueURL,
    json_Decode reference (http.Body Scenario.r) = (Some req, None)
    /\ plugin.GetPost (API Scenario.p) (PostID req) = (Some docPost, None)
    /\ plugin.GetConfig (API Scenario.p) = Some serverConfig
    /\ model.SiteURL (model.ServiceSettings_ serverConfig) = Some siteURL
    /\ url_Parse reference siteURL = inl u
    /\ (Forall (fun s => s <> "." /\ s <> "..") (elements (url.Path u)) ->
        plain (model.Id docPost) ->
        model.PostMessage Scenario.reply
        = "Marked [this post]("
          +:+ URL_String reference
                (url.setPathField u
                   ((if strings.HasPrefix (url.Path u) "/" then "/" else "")
                    +:+ strings.Join
                          (elements (url.Path u)
                           ++ ["_redirect"; "pl"; model.Id docPost]) "/"))
          +:+ ") for documentation [here](" +:+ issueURL
          +:+ ")." +:+ nl +:+ nl
          +:+ "_Generated by the [Doc Up](https://github.com/jwilander/mattermost-plugin-docup) plugin._").
Proof.
  apply (X10_permalink_path reference Scenario.p Scenario.r Completed
           (Scenario.final Scenario.p Scenario.r) Scenario.reply).
  - vm_compute. reflexivity.
  - vm_compute. do 5 right. left. reflexivity.
Defined.

(** A site served under a sub-path, with or without a slash at its
    end. *)
Example permalink_under_subpath :
  map model.PostMessage
    (postsCreated
       (calls (Scenario.final
                 (Scenario.plugin "org/repo" "" ""
                    (Some "https://chat.example.com/team/"))
                 Scenario.r)))
  = [fmt.Sprintf postMessageFormat
       ["https://chat.example.com/team/_redirect/pl/M1";
        "https://github.com/org/repo/issues/7"]].
Proof. vm_compute. reflexivity. Qed.

(** Of the plugin's configuration the handler uses the repository of the
    request's type and the labels, and nothing else. *)
Lemma Exit_same_settings lib p p' r o st :
  API p = API p' ->
  Issues_Create p = Issues_Create p' ->
  Labels (getConfiguration p) = Labels (getConfiguration p') ->
  (forall req,
     json_Decode lib (http.Body r) = (Some req, None) ->
     repositoryFor (getConfiguration p) (Type_ req)
     = repositoryFor (getConfiguration p') (Type_ req)) ->
  Exit lib p r o st -> Exit lib p' r o st.
Proof.
  intros HA HI HL HR E.
  assert (forall req user siteURL u,
            issueRequestOf lib (getConfiguration p) req user siteURL u
            = issueRequestOf lib (getConfiguration p') req user siteURL u)
    as HQ by (intros; unfold issueRequestOf, labelsOf; by rewrite HL).
  destruct E; unfold Composed, Fetched, Resolved, Decoded in *;
    repeat match goal with
           | H : _ /\ _ |- _ => destruct H
           | H : exists _, _ |- _ => destruct H
           | x := _ |- _ => subst x
           end;
    rewrite ?HA, ?HI, ?HQ in *;
    repeat match goal with
           | H : json_Decode _ _ = (Some ?req, None) |- _ =>
               rewrite (HR req H) in *
           end.
  - by apply ExitUnauthorized.
  - by eapply ExitDecodeFailed.
  - by apply ExitNilRequest.
  - by eapply ExitBadRequest.
  - by eapply ExitBadRepository.
  - eapply ExitUserFailed; [repeat split; eassumption | eassumption].
  - eapply ExitPostFailed; [repeat split; eassumption | eassumption..].
  - eapply ExitNilPost; [repeat split; eassumption | eassumption..].
  - eapply ExitNilConfig; [repeat split; eassumption | eassumption..].
  - eapply ExitNilSiteURL; [repeat split; eassumption | eassumption..].
  - eapply ExitParseFailed; [repeat split; eassumption | eassumption..].
  - eapply ExitNilUser; [repeat split; eassumption | eassumption..].
  - eapply (ExitIssueFailed lib p' r); [|eassumption].
    repeat split; eauto.
  - eapply (ExitReplyFailed lib p' r); [|eassumption..].
    repeat split; eauto.
  - eapply (ExitDone lib p' r); [|eassumption..].
    repeat split; eauto.
Qed.

Lemma repositoryFor_same config config' type :
  (forall repo, Configured config type repo <-> Configured config' type repo) ->
  repositoryFor config type = repositoryFor config' type.
Proof.
  intros H.
  destruct (decide (repositoryFor config type = "")) as [E|E];
    destruct (decide (repositoryFor config' type = "")) as [E'|E'].
  - congruence.
  - apply repositoryFor_Configured, H, Configured_repositoryFor in E'.
    congruence.
  - apply repositoryFor_Configured, H, Configured_repositoryFor in E.
    congruence.
  - apply repositoryFor_Configured, H, Configured_repositoryFor in E.
    congruence.
Qed.

(** X11. Of the plugin's configuration, the handler uses the repository
    of the request's type and the labels, and nothing else: two plugins
    with the same server and GitHub behind them that agree on these two
    settings treat a request alike, whatever their API keys and their
    repositories for the other types. *)
Theorem X11_other_settings_do_not_matter
    (lib : Library) (p p' : Plugin) (r : http.Request) :
  API p = API p' ->
  Issues_Create p = Issues_Create p' ->
  Labels (getConfiguration p) = Labels (getConfiguration p') ->
  (forall req repo,
     json_Decode lib (http.Body r) = (Some req, None) ->
     Configured (getConfiguration p) (Type_ req) repo
     <-> Configured (getConfiguration p') (Type_ req) repo) ->
  serve (handleCreate lib p r) = serve (handleCreate lib p' r).
Proof.
  intros HA HI HL HC.
  destruct (serve (handleCreate lib p r)) as [o st] eqn:E.
  symmetry. apply exit_serve.
  apply (Exit_same_settings lib p p'); try done.
  - intros req Hd. apply repositoryFor_same. intros repo. by apply HC.
  - by apply serve_exit.
Qed.

Lemma X11_witness :
  serve (handleCreate reference Scenario.p Scenario.r)
  = serve (handleCreate reference Scenario.other Scenario.r).
Proof.
  apply (X11_other_settings_do_not_matter reference Scenario.p Scenario.other
           Scenario.r).
  - reflexivity.
  - reflexivity.
  - reflexivity.
  - intros req repo Hd.
    assert (req = Scenario.createRequest) as ->
      by (vm_compute in Hd; injection Hd as <-; reflexivity).
    split; intros HC; inversion HC; subst;
      exact (ConfiguredDeveloper _).
Defined.
